(** * Bike rental system: a shallow embedding of [bikerental.py]

    The development follows the source file top-down: the Python builtins the
    program calls ([str.strip], [str.lower], [int], [float],
    [datetime.strptime], [random.choices]), the entity classes with their
    [to_dict]/[from_dict], the JSON files of [BikeRentalSystem], and the
    customer and admin operations.  Interactive prompts are modelled by
    records holding the line typed at each [input()]; what an operation
    prints is summarised by an outcome value.

    Python [str] is modelled by [string] (text is taken to be ASCII), Python
    [float] by the binary64 numbers of [PrimFloat], Python [int] by [Z]. *)

From Stdlib Require Import ZArith String Ascii.
From Stdlib Require Import Floats.
From stdpp Require Import base option list strings.

Local Open Scope string_scope.
Local Open Scope Z_scope.
Local Open Scope list_scope.

Set Warnings "-register-all".

(* ===================================================================== *)
(** * Builtins of the Python runtime used by the program                  *)
(* ===================================================================== *)

Module Py.

(** [str.isspace] on ASCII: TAB..CR, FS..US and SPACE. *)
Definition is_space (c : ascii) : bool :=
  let n := Z.of_N (N_of_ascii c) in
  ((9 <=? n) && (n <=? 13)) || ((28 <=? n) && (n <=? 32)).

Fixpoint lstrip (s : string) : string :=
  match s with
  | String c s' => if is_space c then lstrip s' else s
  | EmptyString => EmptyString
  end.

(** Removes trailing whitespace: a character is kept when something
    that is kept follows it or when it is not whitespace. *)
Fixpoint rstrip (s : string) : string :=
  match s with
  | String c s' =>
      match rstrip s' with
      | EmptyString => if is_space c then EmptyString else String c EmptyString
      | r => String c r
      end
  | EmptyString => EmptyString
  end.

(** [s.strip()] *)
Definition strip (s : string) : string := rstrip (lstrip s).

Definition lower_ascii (c : ascii) : ascii :=
  let n := N_of_ascii c in
  if ((65 <=? n) && (n <=? 90))%N then ascii_of_N (n + 32) else c.

(** [s.lower()] *)
Fixpoint lower (s : string) : string :=
  match s with
  | String c s' => String (lower_ascii c) (lower s')
  | EmptyString => EmptyString
  end.

Definition digit_of_ascii (c : ascii) : option Z :=
  let n := Z.of_N (N_of_ascii c) in
  if (48 <=? n) && (n <=? 57) then Some (n - 48) else None.

Definition is_underscore (c : ascii) : bool := Ascii.eqb c "_"%char.

(** Continues a run of digits in which single underscores may separate
    two digits; returns the accumulated value, the number of digits read
    and the unread rest. *)
Fixpoint digits_tail (acc : Z) (n : nat) (s : string) : Z * nat * string :=
  match s with
  | String c s' =>
      match digit_of_ascii c with
      | Some d => digits_tail (10 * acc + d) (S n) s'
      | None =>
          if is_underscore c then
            match s' with
            | String c2 s'' =>
                match digit_of_ascii c2 with
                | Some d => digits_tail (10 * acc + d) (S n) s''
                | None => (acc, n, s)
                end
            | EmptyString => (acc, n, s)
            end
          else (acc, n, s)
      end
  | EmptyString => (acc, n, s)
  end.

(** A digit part [digit (["_"] digit)*]; [None] when [s] does not start
    with a digit. *)
Definition digitpart (s : string) : option (Z * nat * string) :=
  match s with
  | String c s' =>
      match digit_of_ascii c with
      | Some d => Some (digits_tail d 1%nat s')
      | None => None
      end
  | EmptyString => None
  end.

(** An optional sign; [true] stands for minus. *)
Definition sign (s : string) : bool * string :=
  match s with
  | String "-"%char s' => (true, s')
  | String "+"%char s' => (false, s')
  | _ => (false, s)
  end.

(** The whitespace that [int] and [float] skip around the number in an
    ASCII string: TAB..CR and SPACE.  The separators FS..US, which
    [str.strip] removes, are not among them: [int] and [float] raise
    [ValueError] on a string that keeps one. *)
Definition is_c_space (c : ascii) : bool :=
  let n := Z.of_N (N_of_ascii c) in
  ((9 <=? n) && (n <=? 13)) || (n =? 32).

Fixpoint c_lstrip (s : string) : string :=
  match s with
  | String c s' => if is_c_space c then c_lstrip s' else s
  | EmptyString => EmptyString
  end.

Fixpoint c_rstrip (s : string) : string :=
  match s with
  | String c s' =>
      match c_rstrip s' with
      | EmptyString => if is_c_space c then EmptyString else String c EmptyString
      | r => String c r
      end
  | EmptyString => EmptyString
  end.

Definition c_strip (s : string) : string := c_rstrip (c_lstrip s).

(** [sys.int_info.default_max_str_digits]: a decimal string with more
    digits is refused by [int]. *)
Definition int_max_str_digits : nat := 4300.

(** [int(s)] in base ten; [None] stands for [ValueError]. *)
Definition int (s : string) : option Z :=
  let '(neg, body) := sign (c_strip s) in
  match digitpart body with
  | Some (v, n, EmptyString) =>
      if (int_max_str_digits <? n)%nat then None
      else Some (if neg then - v else v)
  | _ => None
  end.

(** The binary64 number nearest to [m * 10 ^ e] (ties to even), as the
    correctly rounded string conversion of [float] gives it. *)
Definition float_of_decimal (neg : bool) (m e : Z) : float :=
  match m with
  | Zpos p =>
      if 0 <=? e
      then SF2Prim (binary_normalize prec emax
                      (if neg then - (m * 10 ^ e) else m * 10 ^ e) 0 false)
      else SF2Prim (SFdiv prec emax (S754_finite neg p 0)
                      (S754_finite false (Z.to_pos (10 ^ (- e))) 0))
  | _ => if neg then neg_zero else zero
  end.

(** The exponent part ["e" [sign] digitpart] of a float literal, when
    there is one. *)
Definition exponent (s : string) : option (Z * string) :=
  match s with
  | String c s' =>
      if Ascii.eqb (lower_ascii c) "e"%char then
        let '(neg, body) := sign s' in
        match digitpart body with
        | Some (v, _, rest) => Some (if neg then - v else v, rest)
        | None => None
        end
      else Some (0, s)
  | EmptyString => Some (0, s)
  end.

(** The digits before and after the point: mantissa, number of digits
    read, number of digits after the point, rest. *)
Definition mantissa (s : string) : Z * nat * nat * string :=
  let '(ip, ni, rest) :=
    match digitpart s with
    | Some r => r
    | None => (0, 0%nat, s)
    end in
  match rest with
  | String "."%char rest' =>
      match rest' with
      | String c _ =>
          match digit_of_ascii c with
          | Some _ =>
              let '(v, n, rest'') := digits_tail ip 0%nat rest' in
              (v, (ni + n)%nat, n, rest'')
          | None => (ip, ni, 0%nat, rest')
          end
      | EmptyString => (ip, ni, 0%nat, rest')
      end
  | _ => (ip, ni, 0%nat, rest)
  end.

(** [float(s)]; [None] stands for [ValueError]. *)
Definition float (s : string) : option float :=
  let '(neg, body) := sign (c_strip s) in
  let low := lower body in
  if String.eqb low "inf" || String.eqb low "infinity"
  then Some (if neg then neg_infinity else infinity)
  else if String.eqb low "nan" then Some nan
  else
    let '(m, nd, nf, rest) := mantissa body in
    match nd with
    | O => None
    | S _ =>
        match exponent rest with
        | Some (e, EmptyString) => Some (float_of_decimal neg m (e - Z.of_nat nf))
        | _ => None
        end
    end.

(** The conversion of an [int] operand that [float * int] performs:
    the nearest binary64 number. *)
Definition float_of_int (z : Z) : PrimFloat.float :=
  SF2Prim (binary_normalize prec emax z 0 false).

(** [string.digits] *)
Definition digits : string := "0123456789".

(** [''.join(random.choices(population, k=k))]: the [i]-th character is
    the one the [i]-th draw [rnd i] of the generator selects. *)
Definition choices (population : string) (k : nat) (rnd : nat → nat) : string :=
  string_of_list_ascii
    (map (λ i, default "0"%char
                 (list_ascii_of_string population
                    !! (rnd i mod String.length population)%nat))
         (seq 0 k)).

End Py.

(* ===================================================================== *)
(** * The part of [datetime] the booking dialogue relies on               *)
(* ===================================================================== *)

Module Datetime.

(** A naive [datetime.datetime] object. *)
Record datetime := mk_datetime {
  year : Z; month : Z; day : Z;
  hour : Z; minute : Z; second : Z; microsecond : Z
}.

Definition MINYEAR : Z := 1.
Definition MAXYEAR : Z := 9999.

Definition is_leap (y : Z) : bool :=
  (y mod 4 =? 0) && (negb (y mod 100 =? 0) || (y mod 400 =? 0)).

Definition days_in_month (y m : Z) : Z :=
  if (m =? 2) && is_leap y then 29
  else nth (Z.to_nat m) [0; 31; 28; 31; 30; 31; 30; 31; 31; 30; 31; 30; 31] 0.

Definition days_before_year (y : Z) : Z :=
  let y1 := y - 1 in
  y1 * 365 + y1 / 4 - y1 / 100 + y1 / 400.

Definition days_before_month (y m : Z) : Z :=
  nth (Z.to_nat m) [0; 0; 31; 59; 90; 120; 151; 181; 212; 243; 273; 304; 334] 0
  + (if (2 <? m) && is_leap y then 1 else 0).

Definition ymd2ord (y m d : Z) : Z :=
  days_before_year y + days_before_month y m + d.

Definition toordinal (t : datetime) : Z :=
  ymd2ord (year t) (month t) (day t).

(** The date constructor's range checks. *)
Definition valid_date (y m d : Z) : bool :=
  (MINYEAR <=? y) && (y <=? MAXYEAR) && (1 <=? m) && (m <=? 12)
  && (1 <=? d) && (d <=? days_in_month y m).

(** Comparison of naive datetimes: lexicographic on the seven fields. *)
Definition fields (t : datetime) : list Z :=
  [year t; month t; day t; hour t; minute t; second t; microsecond t].

Fixpoint lex_compare (a b : list Z) : comparison :=
  match a, b with
  | x :: a', y :: b' =>
      match x ?= y with
      | Eq => lex_compare a' b'
      | c => c
      end
  | [], [] => Eq
  | [], _ :: _ => Lt
  | _ :: _, [] => Gt
  end.

Definition compare (a b : datetime) : comparison :=
  lex_compare (fields a) (fields b).

Definition ltb (a b : datetime) : bool :=
  match compare a b with Lt => true | _ => false end.

Definition gtb (a b : datetime) : bool :=
  match compare a b with Gt => true | _ => false end.

(** [(a - b).days]: the day component of the normalised difference. *)
Definition sub_days (a b : datetime) : Z :=
  let secs t := second t + minute t * 60 + hour t * 3600 in
  let us := (secs a - secs b) * 1000000 + (microsecond a - microsecond b) in
  (toordinal a - toordinal b) + us / (86400 * 1000000).

(** The directive [%Y]: exactly four digits. *)
Definition field_Y (s : string) : option (Z * string) :=
  match s with
  | String a (String b (String c (String d rest))) =>
      match Py.digit_of_ascii a, Py.digit_of_ascii b,
            Py.digit_of_ascii c, Py.digit_of_ascii d with
      | Some a, Some b, Some c, Some d =>
          Some (1000 * a + 100 * b + 10 * c + d, rest)
      | _, _, _, _ => None
      end
  | _ => None
  end.

Definition digit_in (lo hi : Z) (c : ascii) : option Z :=
  match Py.digit_of_ascii c with
  | Some d => if (lo <=? d) && (d <=? hi) then Some d else None
  | None => None
  end.

(** The directive [%m]: [1[0-2]|0[1-9]|[1-9]], alternatives tried in
    this order. *)
Definition field_m (s : string) : option (Z * string) :=
  let one :=
    match s with
    | String c rest => (λ d, (d, rest)) <$> digit_in 1 9 c
    | EmptyString => None
    end in
  match s with
  | String "1"%char (String c rest) =>
      match digit_in 0 2 c with
      | Some d => Some (10 + d, rest)
      | None => one
      end
  | String "0"%char (String c rest) =>
      match digit_in 1 9 c with
      | Some d => Some (d, rest)
      | None => one
      end
  | _ => one
  end.

(** The directive [%d]: [3[01]|[12]\d|0[1-9]|[1-9]| [1-9]]. *)
Definition field_d (s : string) : option (Z * string) :=
  let one :=
    match s with
    | String c rest => (λ d, (d, rest)) <$> digit_in 1 9 c
    | EmptyString => None
    end in
  match s with
  | String c1 (String c2 rest) =>
      match digit_in 3 3 c1, digit_in 0 1 c2 with
      | Some a, Some b => Some (10 * a + b, rest)
      | _, _ =>
          match digit_in 1 2 c1, digit_in 0 9 c2 with
          | Some a, Some b => Some (10 * a + b, rest)
          | _, _ =>
              match digit_in 0 0 c1, digit_in 1 9 c2 with
              | Some _, Some b => Some (b, rest)
              | _, _ =>
                  match one with
                  | Some r => Some r
                  | None =>
                      if Ascii.eqb c1 " "%char
                      then (λ d, (d, rest)) <$> digit_in 1 9 c2
                      else None
                  end
              end
          end
      end
  | _ => one
  end.

Definition dash (s : string) : option string :=
  match s with
  | String "-"%char rest => Some rest
  | _ => None
  end.

(** [datetime.datetime.strptime(s, "%Y-%m-%d")]; [None] stands for
    [ValueError] (no match, unconverted data, or a date out of range). *)
Definition strptime (s : string) : option datetime :=
  '(y, s1) ← field_Y s;
  s2 ← dash s1;
  '(m, s3) ← field_m s2;
  s4 ← dash s3;
  '(d, s5) ← field_d s4;
  match s5 with
  | EmptyString =>
      if valid_date y m d then Some (mk_datetime y m d 0 0 0 0) else None
  | _ => None
  end.

End Datetime.

(* ===================================================================== *)
(** * Exceptions that no handler of the program catches                   *)
(* ===================================================================== *)

Inductive exn :=
  | KeyError (key : string)   (** a record lacks a key *)
  | TypeError                 (** a value is not a record, or a file is not a sequence *)
  | Untyped (key : string).   (** a value is not of the type the class annotates;
                                  such files are outside this model *)

Inductive result (A : Type) :=
  | Ok (a : A)
  | Raise (e : exn).
Arguments Ok {A} a.
Arguments Raise {A} e.

#[global] Instance result_ret : MRet result := λ A a, Ok a.
#[global] Instance result_bind : MBind result := λ A B f m,
  match m with
  | Ok a => f a
  | Raise e => Raise e
  end.

(* ===================================================================== *)
(** * JSON values, as [json.load] returns them                            *)
(* ===================================================================== *)

Inductive json :=
  | JNull
  | JBool (b : bool)
  | JInt (z : Z)
  | JFloat (f : float)
  | JStr (s : string)
  | JList (l : list json)
  | JDict (d : list (string * json)).

(** A [JDict] lists the items of a Python [dict] in insertion order;
    [assoc k d] is the value bound to [k]. *)
Fixpoint assoc (k : string) (d : list (string * json)) : option json :=
  match d with
  | (k', v) :: d' => if String.eqb k k' then Some v else assoc k d'
  | [] => None
  end.

(** [data[key]] *)
Definition getitem (data : json) (key : string) : result json :=
  match data with
  | JDict d =>
      match assoc key d with
      | Some v => Ok v
      | None => Raise (KeyError key)
      end
  | _ => Raise TypeError
  end.

(** [data.get(key, '')]; only called where [data[...]] has succeeded. *)
Definition get_default (data : json) (key : string) : json :=
  match data with
  | JDict d => default (JStr "") (assoc key d)
  | _ => JStr ""
  end.

Definition as_str (key : string) (v : json) : result string :=
  match v with
  | JStr s => Ok s
  | _ => Raise (Untyped key)
  end.

Definition as_float (key : string) (v : json) : result float :=
  match v with
  | JFloat f => Ok f
  | _ => Raise (Untyped key)
  end.

Definition as_bool (key : string) (v : json) : result bool :=
  match v with
  | JBool b => Ok b
  | _ => Raise (Untyped key)
  end.

Definition str_item (data : json) (key : string) : result string :=
  getitem data key ≫= as_str key.
Definition float_item (data : json) (key : string) : result float :=
  getitem data key ≫= as_float key.
Definition bool_item (data : json) (key : string) : result bool :=
  getitem data key ≫= as_bool key.

(** What [for x in data] iterates over. *)
Definition iterate (data : json) : result (list json) :=
  match data with
  | JList l => Ok l
  | JDict d => Ok (map (λ kv, JStr kv.1) d)
  | JStr s => Ok (map (λ c, JStr (String c EmptyString)) (list_ascii_of_string s))
  | _ => Raise TypeError
  end.

(* ===================================================================== *)
(** * Entity classes                                                      *)
(* ===================================================================== *)

Record Bike := mk_Bike {
  bike_id : string;
  name : string;
  color : string;
  plate_number : string;
  price_per_day : float;
  location : string;
  available : bool
}.

Module BikeM.

Definition to_dict (b : Bike) : json :=
  JDict [("bike_id", JStr (bike_id b));
         ("name", JStr (name b));
         ("color", JStr (color b));
         ("plate_number", JStr (plate_number b));
         ("price_per_day", JFloat (price_per_day b));
         ("location", JStr (location b));
         ("available", JBool (available b))].

Definition from_dict (data : json) : result Bike :=
  i ← str_item data "bike_id";
  n ← str_item data "name";
  c ← str_item data "color";
  p ← str_item data "plate_number";
  r ← float_item data "price_per_day";
  l ← str_item data "location";
  a ← bool_item data "available";
  mret (mk_Bike i n c p r l a).

Definition with_available (v : bool) (b : Bike) : Bike :=
  mk_Bike (bike_id b) (name b) (color b) (plate_number b)
          (price_per_day b) (location b) v.

End BikeM.

Record Booking := mk_Booking {
  booking_id : string;
  customer_username : string;
  booked_bike_id : string;       (** the field [bike_id] of a booking *)
  pickup_location : string;
  from_date : string;
  to_date : string;
  total_amount : float;
  status : string                (** Pending, Approved, Rejected, Completed *)
}.

Module BookingM.

Definition to_dict (b : Booking) : json :=
  JDict [("booking_id", JStr (booking_id b));
         ("customer_username", JStr (customer_username b));
         ("bike_id", JStr (booked_bike_id b));
         ("pickup_location", JStr (pickup_location b));
         ("from_date", JStr (from_date b));
         ("to_date", JStr (to_date b));
         ("total_amount", JFloat (total_amount b));
         ("status", JStr (status b))].

Definition from_dict (data : json) : result Booking :=
  i ← str_item data "booking_id";
  c ← str_item data "customer_username";
  k ← str_item data "bike_id";
  p ← str_item data "pickup_location";
  f ← str_item data "from_date";
  t ← str_item data "to_date";
  a ← float_item data "total_amount";
  s ← str_item data "status";
  mret (mk_Booking i c k p f t a s).

Definition with_status (s : string) (b : Booking) : Booking :=
  mk_Booking (booking_id b) (customer_username b) (booked_bike_id b)
             (pickup_location b) (from_date b) (to_date b)
             (total_amount b) s.

End BookingM.

(** The two subclasses of the abstract class [User]. *)
Inductive User :=
  | Admin (username password : string)
  | Customer (username password name phone email : string).

Module UserM.

Definition username (u : User) : string :=
  match u with
  | Admin n _ => n
  | Customer n _ _ _ _ => n
  end.

Definition password (u : User) : string :=
  match u with
  | Admin _ p => p
  | Customer _ p _ _ _ => p
  end.

Definition user_type (u : User) : string :=
  match u with
  | Admin _ _ => "admin"
  | Customer _ _ _ _ _ => "customer"
  end.

Definition to_dict (u : User) : json :=
  let base := [("username", JStr (username u));
               ("password", JStr (password u));
               ("user_type", JStr (user_type u))] in
  match u with
  | Admin _ _ => JDict base
  | Customer _ _ n p e =>
      JDict (base ++ [("name", JStr n); ("phone", JStr p); ("email", JStr e)])
  end.

End UserM.

(* ===================================================================== *)
(** * The data files and the persistence layer of [BikeRentalSystem]      *)
(* ===================================================================== *)

(** A file of the working directory: absent, present with text that is
    not JSON, or present with a JSON document.  [json.dump] followed by
    [json.load] is taken to give back the document written. *)
Inductive file :=
  | Missing
  | Corrupt
  | Content (doc : json).

Record store := mk_store {
  USERS_FILE : file;       (** users.json *)
  BIKES_FILE : file;       (** bikes.json *)
  BOOKINGS_FILE : file     (** bookings.json *)
}.

Module BikeRentalSystem.

(** The body shared by the three loaders: [FileNotFoundError] and
    [json.JSONDecodeError] give the empty list, anything else raised
    while the records are built propagates. *)
Definition load {A} (from_dict : json → result A) (f : file) : result (list A) :=
  match f with
  | Missing | Corrupt => Ok []
  | Content doc => iterate doc ≫= mapM from_dict
  end.

Definition user_of (user_data : json) : result User :=
  t ← getitem user_data "user_type";
  match t with
  | JStr "admin" =>
      u ← str_item user_data "username";
      p ← str_item user_data "password";
      mret (Admin u p)
  | _ =>
      u ← str_item user_data "username";
      p ← str_item user_data "password";
      n ← as_str "name" (get_default user_data "name");
      h ← as_str "phone" (get_default user_data "phone");
      e ← as_str "email" (get_default user_data "email");
      mret (Customer u p n h e)
  end.

Definition load_users (st : store) : result (list User) :=
  load user_of (USERS_FILE st).

Definition save_users (users : list User) (st : store) : store :=
  mk_store (Content (JList (map UserM.to_dict users)))
           (BIKES_FILE st) (BOOKINGS_FILE st).

Definition load_bikes (st : store) : result (list Bike) :=
  load BikeM.from_dict (BIKES_FILE st).

Definition save_bikes (bikes : list Bike) (st : store) : store :=
  mk_store (USERS_FILE st)
           (Content (JList (map BikeM.to_dict bikes)))
           (BOOKINGS_FILE st).

Definition load_bookings (st : store) : result (list Booking) :=
  load BookingM.from_dict (BOOKINGS_FILE st).

Definition save_bookings (bookings : list Booking) (st : store) : store :=
  mk_store (USERS_FILE st) (BIKES_FILE st)
           (Content (JList (map BookingM.to_dict bookings))).

(** [save_booking]: reloads the bookings, appends, rewrites the file. *)
Definition save_booking (booking : Booking) (st : store) : result store :=
  bookings ← load_bookings st;
  mret (save_bookings (bookings ++ [booking]) st).

(** [save_all_data], called with both keys present. *)
Definition save_all_data (bikes : list Bike) (bookings : list Booking)
    (st : store) : store :=
  save_bookings bookings (save_bikes bikes st).

Definition create_if_missing (f : file) : file :=
  match f with
  | Missing => Content (JList [])
  | _ => f
  end.

Definition sample_bikes : list Bike :=
  [mk_Bike "BIKE0001" "Yamaha R15" "Blue" "MH01AB1234" 25 "Downtown" true;
   mk_Bike "BIKE0002" "Royal Enfield Classic 350" "Black" "MH02CD5678" 35 "Uptown" true;
   mk_Bike "BIKE0003" "Honda CB Shine" "Red" "MH03EF9012" 20 "Suburbs" true;
   mk_Bike "BIKE0004" "Bajaj Pulsar 150" "White" "MH04GH3456" 22 "Downtown" true;
   mk_Bike "BIKE0005" "KTM Duke 200" "Orange" "MH05IJ7890" 30 "Uptown" true].

(** The loop over the three file names: [json.dump([], f)] into each file
    that does not exist. *)
Definition create_missing_files (st : store) : store :=
  mk_store (create_if_missing (USERS_FILE st))
           (create_if_missing (BIKES_FILE st))
           (create_if_missing (BOOKINGS_FILE st)).

Definition initialize_files (st : store) : result store :=
  let st1 := create_missing_files st in
  users ← load_users st1;
  match users with
  | [] => mret (save_bikes sample_bikes (save_users [Admin "admin" "admin123"] st1))
  | _ :: _ => mret st1
  end.

End BikeRentalSystem.

(* ===================================================================== *)
(** * What an operation reports                                           *)
(* ===================================================================== *)

(** One constructor per closing message of an operation (the line it
    prints before returning), with the values the message shows. *)
Inductive outcome :=
  (* Customer.view_available_bikes *)
  | NoBikesAtTheMoment
  | NoBikesAvailableIn (location : string)
  | AvailableBikes (bikes : list Bike)
  (* Customer.book_bike *)
  | InvalidDateFormat
  | FromMustBeBeforeTo
  | FromInThePast
  | InvalidNumber
  | InvalidBikeNumber
  | BookingCancelled
  | BookingSuccessful (booking_id : string)
  (* Customer.view_booking_status, make_payment, view_my_bookings *)
  | NoBookingFound (booking_id : string)
  | BookingShown (booking : Booking)
  | CannotMakePayment (status : string)
  | PaymentCancelled
  | PaymentSuccessful (booking_id : string)
  | NoBookingsYet
  | MyBookings (bookings : list Booking)
  (* Admin *)
  | InvalidPrice
  | BikeAdded (bike_id : string)
  | NoBikesInSystem
  | AllBikes (bikes : list Bike)
  | NoBikeFound (bike_id : string)
  | BikeUpdated (bike_id : string) (price_rejected : bool)
  | CannotDeleteBike (active_bookings : nat)
  | BikeDeleted (bike_id : string)
  | DeletionCancelled
  | NoBookingsInSystem
  | AllBookings (bookings : list Booking)
  | NoPendingBookings
  | ManageCancelled
  | InvalidSelection
  | BookingApproved (booking_id : string)
  | BookingRejected (booking_id : string)
  | ActionCancelled
  | NoCustomers
  | AllCustomers (customers : list User)
  (* BikeRentalSystem *)
  | UsernameExists
  | RegistrationSuccessful (customer : User)
  | LoginSuccessful (user : User)
  | InvalidCredentials
  | Initialized
  (* an exception reached the top level: the program stops *)
  | Crashed (e : exn).

(** [for bike in bikes: if bike.bike_id == id: bike.available = v; break] *)
Definition set_first_available (id : string) (v : bool) (bikes : list Bike)
    : list Bike :=
  match list_find (λ b, bike_id b = id) bikes with
  | Some (i, b) => <[i := BikeM.with_available v b]> bikes
  | None => bikes
  end.

(** The elements of [l] that satisfy [P], each with its position in [l]:
    the objects of a filtered list are those of the list it was built
    from, so assigning to a field of one of them updates that position. *)
Definition filter_pos {A} (P : A → Prop) `{∀ x, Decision (P x)} (l : list A)
    : list (nat * A) :=
  filter (λ ix, P ix.2) (imap pair l).

(* ===================================================================== *)
(** * class Customer                                                      *)
(* ===================================================================== *)

Record book_input := mk_book_input {
  in_pickup_location : string;
  in_from_date : string;
  in_to_date : string;
  in_bike_number : string;
  in_confirm_booking : string
}.

Record payment_input := mk_payment_input {
  in_pay_booking_id : string;
  in_pay_method : string
}.

Module CustomerM.

(** [bike.location.lower() == pickup.lower()] *)
Definition same_location (pickup : string) (b : Bike) : Prop :=
  Py.lower (location b) = Py.lower pickup.

#[global] Instance same_location_dec pickup b :
  Decision (same_location pickup b) :=
  decide (Py.lower (location b) = Py.lower pickup).

Definition view_available_bikes (in_location : string) (st : store)
    : result (outcome * store) :=
  bikes ← BikeRentalSystem.load_bikes st;
  let available_bikes := filter (λ b, available b = true) bikes in
  match available_bikes with
  | [] => mret (NoBikesAtTheMoment, st)
  | _ :: _ =>
      let location := Py.strip in_location in
      let filtered_bikes :=
        if String.eqb location ""
        then available_bikes
        else filter (same_location location) available_bikes in
      match filtered_bikes with
      | [] => mret (NoBikesAvailableIn location, st)
      | _ :: _ => mret (AvailableBikes filtered_bikes, st)
      end
  end.

Definition book_bike (self : User) (inp : book_input)
    (now : Datetime.datetime) (rnd : nat → nat) (st : store)
    : result (outcome * store) :=
  let pickup_location := Py.strip (in_pickup_location inp) in
  let from_date := Py.strip (in_from_date inp) in
  let to_date := Py.strip (in_to_date inp) in
  match Datetime.strptime from_date, Datetime.strptime to_date with
  | Some from_dt, Some to_dt =>
      if Datetime.gtb from_dt to_dt then mret (FromMustBeBeforeTo, st)
      else if Datetime.ltb from_dt now then mret (FromInThePast, st)
      else
        bikes ← BikeRentalSystem.load_bikes st;
        let available_bikes :=
          filter (λ b, available b = true ∧ same_location pickup_location b)
                 bikes in
        match available_bikes with
        | [] => mret (NoBikesAvailableIn pickup_location, st)
        | _ :: _ =>
            match Py.int (in_bike_number inp) with
            | None => mret (InvalidNumber, st)
            | Some bike_choice =>
                if (1 <=? bike_choice)
                   && (bike_choice <=? Z.of_nat (length available_bikes))
                then
                  match available_bikes !! Z.to_nat (bike_choice - 1) with
                  | Some selected_bike =>
                      let rental_days := Datetime.sub_days to_dt from_dt + 1 in
                      let total_amount :=
                        (price_per_day selected_bike
                         * Py.float_of_int rental_days)%float in
                      if String.eqb (Py.lower (in_confirm_booking inp)) "yes"
                      then
                        let booking_id :=
                          "BKG" +:+ Py.choices Py.digits 6 rnd in
                        let booking :=
                          mk_Booking booking_id (UserM.username self)
                                     (bike_id selected_bike) pickup_location
                                     from_date to_date total_amount
                                     "Pending" in
                        st' ← BikeRentalSystem.save_booking booking st;
                        mret (BookingSuccessful booking_id, st')
                      else mret (BookingCancelled, st)
                  | None => mret (InvalidBikeNumber, st)  (* index in range: not reached *)
                  end
                else mret (InvalidBikeNumber, st)
            end
        end
  | _, _ => mret (InvalidDateFormat, st)
  end.

(** [next((b for b in bookings if b.booking_id == booking_id
           and b.customer_username == self.username), None)],
    with the position of the booking found. *)
Definition find_own (self : User) (booking_id0 : string)
    (bookings : list Booking) : option (nat * Booking) :=
  list_find (λ b, booking_id b = booking_id0
                  ∧ customer_username b = UserM.username self) bookings.

Definition view_booking_status (self : User) (in_booking_id : string)
    (st : store) : result (outcome * store) :=
  let booking_id := Py.strip in_booking_id in
  bookings ← BikeRentalSystem.load_bookings st;
  match find_own self booking_id bookings with
  | Some (_, booking) => mret (BookingShown booking, st)
  | None => mret (NoBookingFound booking_id, st)
  end.

Definition make_payment (self : User) (inp : payment_input) (st : store)
    : result (outcome * store) :=
  let booking_id := Py.strip (in_pay_booking_id inp) in
  bookings ← BikeRentalSystem.load_bookings st;
  match find_own self booking_id bookings with
  | None => mret (NoBookingFound booking_id, st)
  | Some (i, booking) =>
      if negb (String.eqb (status booking) "Approved")
      then mret (CannotMakePayment (status booking), st)
      else
        let choice := in_pay_method inp in
        if String.eqb choice "1" || String.eqb choice "2"
           || String.eqb choice "3"
        then
          let bookings' :=
            <[i := BookingM.with_status "Completed" booking]> bookings in
          bikes ← BikeRentalSystem.load_bikes st;
          let bikes' :=
            set_first_available (booked_bike_id booking) false bikes in
          mret (PaymentSuccessful booking_id,
                BikeRentalSystem.save_all_data bikes' bookings' st)
        else mret (PaymentCancelled, st)
  end.

Definition view_my_bookings (self : User) (st : store)
    : result (outcome * store) :=
  bookings ← BikeRentalSystem.load_bookings st;
  let my_bookings :=
    filter (λ b, customer_username b = UserM.username self) bookings in
  match my_bookings with
  | [] => mret (NoBookingsYet, st)
  | _ :: _ => mret (MyBookings my_bookings, st)
  end.

End CustomerM.

(* ===================================================================== *)
(** * class Admin                                                         *)
(* ===================================================================== *)

Record add_input := mk_add_input {
  in_name : string;
  in_color : string;
  in_plate_number : string;
  in_price : string;
  in_location : string
}.

Record update_input := mk_update_input {
  in_update_bike_id : string;
  in_new : add_input          (** the five prompts, in the same order *)
}.

Record delete_input := mk_delete_input {
  in_delete_bike_id : string;
  in_confirm_delete : string
}.

Record manage_input := mk_manage_input {
  in_booking_number : string;
  in_action : string
}.

Module AdminM.

Definition add_bike (inp : add_input) (rnd : nat → nat) (st : store)
    : result (outcome * store) :=
  let bike_id := "BIKE" +:+ Py.choices Py.digits 4 rnd in
  let name := Py.strip (in_name inp) in
  let color := Py.strip (in_color inp) in
  let plate_number := Py.strip (in_plate_number inp) in
  match Py.float (Py.strip (in_price inp)) with
  | None => mret (InvalidPrice, st)
  | Some price_per_day =>
      let location := Py.strip (in_location inp) in
      let bike :=
        mk_Bike bike_id name color plate_number price_per_day location true in
      bikes ← BikeRentalSystem.load_bikes st;
      mret (BikeAdded bike_id, BikeRentalSystem.save_bikes (bikes ++ [bike]) st)
  end.

Definition view_all_bikes (st : store) : result (outcome * store) :=
  bikes ← BikeRentalSystem.load_bikes st;
  match bikes with
  | [] => mret (NoBikesInSystem, st)
  | _ :: _ => mret (AllBikes bikes, st)
  end.

(** [if text: bike.field = text] *)
Definition keep_or (text current : string) : string :=
  if String.eqb text "" then current else text.

(** The five optional assignments of [update_bike]; the boolean tells
    whether a price was typed that [float] refused. *)
Definition apply_update (inp : add_input) (bike : Bike) : Bike * bool :=
  let price := Py.strip (in_price inp) in
  let '(new_price, refused) :=
    if String.eqb price "" then (price_per_day bike, false)
    else match Py.float price with
         | Some p => (p, false)
         | None => (price_per_day bike, true)
         end in
  (mk_Bike (bike_id bike)
           (keep_or (Py.strip (in_name inp)) (name bike))
           (keep_or (Py.strip (in_color inp)) (color bike))
           (keep_or (Py.strip (in_plate_number inp)) (plate_number bike))
           new_price
           (keep_or (Py.strip (in_location inp)) (location bike))
           (available bike),
   refused).

Definition update_bike (inp : update_input) (st : store)
    : result (outcome * store) :=
  let bike_id0 := Py.strip (in_update_bike_id inp) in
  bikes ← BikeRentalSystem.load_bikes st;
  match list_find (λ b, bike_id b = bike_id0) bikes with
  | None => mret (NoBikeFound bike_id0, st)
  | Some (i, bike) =>
      let '(bike', refused) := apply_update (in_new inp) bike in
      mret (BikeUpdated bike_id0 refused,
            BikeRentalSystem.save_bikes (<[i := bike']> bikes) st)
  end.

(** [b.status in ["Pending", "Approved"]] for a booking of the bike. *)
Definition active_for (bike_id0 : string) (b : Booking) : Prop :=
  booked_bike_id b = bike_id0
  ∧ (status b = "Pending" ∨ status b = "Approved").

#[global] Instance active_for_dec bike_id0 b : Decision (active_for bike_id0 b) :=
  decide (booked_bike_id b = bike_id0
          ∧ (status b = "Pending" ∨ status b = "Approved")).

Definition delete_bike (inp : delete_input) (st : store)
    : result (outcome * store) :=
  let bike_id0 := Py.strip (in_delete_bike_id inp) in
  bikes ← BikeRentalSystem.load_bikes st;
  match list_find (λ b, bike_id b = bike_id0) bikes with
  | None => mret (NoBikeFound bike_id0, st)
  | Some _ =>
      if String.eqb (Py.lower (in_confirm_delete inp)) "yes" then
        bookings ← BikeRentalSystem.load_bookings st;
        let active_bookings := filter (active_for bike_id0) bookings in
        match active_bookings with
        | _ :: _ => mret (CannotDeleteBike (length active_bookings), st)
        | [] =>
            let bikes' := filter (λ b, bike_id b ≠ bike_id0) bikes in
            mret (BikeDeleted bike_id0, BikeRentalSystem.save_bikes bikes' st)
        end
      else mret (DeletionCancelled, st)
  end.

Definition view_all_bookings (st : store) : result (outcome * store) :=
  bookings ← BikeRentalSystem.load_bookings st;
  match bookings with
  | [] => mret (NoBookingsInSystem, st)
  | _ :: _ => mret (AllBookings bookings, st)
  end.

Definition manage_bookings (inp : manage_input) (st : store)
    : result (outcome * store) :=
  bookings ← BikeRentalSystem.load_bookings st;
  let pending_bookings := filter_pos (λ b, status b = "Pending") bookings in
  match pending_bookings with
  | [] => mret (NoPendingBookings, st)
  | _ :: _ =>
      match Py.int (in_booking_number inp) with
      | None => mret (InvalidNumber, st)
      | Some choice =>
          if choice =? 0 then mret (ManageCancelled, st)
          else if (1 <=? choice)
                  && (choice <=? Z.of_nat (length pending_bookings))
          then
            match pending_bookings !! Z.to_nat (choice - 1) with
            | Some (i, selected_booking) =>
                let action := in_action inp in
                if String.eqb action "1" then
                  let bookings' :=
                    <[i := BookingM.with_status "Approved" selected_booking]>
                      bookings in
                  mret (BookingApproved (booking_id selected_booking),
                        BikeRentalSystem.save_bookings bookings' st)
                else if String.eqb action "2" then
                  let bookings' :=
                    <[i := BookingM.with_status "Rejected" selected_booking]>
                      bookings in
                  bikes ← BikeRentalSystem.load_bikes st;
                  let bikes' :=
                    set_first_available (booked_bike_id selected_booking)
                                        true bikes in
                  mret (BookingRejected (booking_id selected_booking),
                        BikeRentalSystem.save_all_data bikes' bookings' st)
                else mret (ActionCancelled, st)
            | None => mret (InvalidSelection, st)  (* index in range: not reached *)
            end
          else mret (InvalidSelection, st)
      end
  end.

Definition view_all_customers (st : store) : result (outcome * store) :=
  customers ← BikeRentalSystem.load_users st;
  let customer_list :=
    filter (λ c, UserM.user_type c = "customer") customers in
  match customer_list with
  | [] => mret (NoCustomers, st)
  | _ :: _ => mret (AllCustomers customer_list, st)
  end.

End AdminM.

(* ===================================================================== *)
(** * Registration, login and the dispatch of the menus                   *)
(* ===================================================================== *)

Record register_input := mk_register_input {
  in_reg_username : string;
  in_reg_password : string;
  in_reg_name : string;
  in_reg_phone : string;
  in_reg_email : string
}.

Module SessionM.

Definition register_customer (inp : register_input) (st : store)
    : result (outcome * store) :=
  let username := Py.strip (in_reg_username inp) in
  users ← BikeRentalSystem.load_users st;
  if bool_decide (Exists (λ u, UserM.username u = username) users)
  then mret (UsernameExists, st)
  else
    let customer :=
      Customer username (Py.strip (in_reg_password inp))
               (Py.strip (in_reg_name inp)) (Py.strip (in_reg_phone inp))
               (Py.strip (in_reg_email inp)) in
    mret (RegistrationSuccessful customer,
          BikeRentalSystem.save_users (users ++ [customer]) st).

Definition login (in_username in_password : string) (st : store)
    : result (outcome * store) :=
  let username := Py.strip in_username in
  let password := Py.strip in_password in
  users ← BikeRentalSystem.load_users st;
  match list_find (λ u, UserM.username u = username
                        ∧ UserM.password u = password) users with
  | Some (_, user) => mret (LoginSuccessful user, st)
  | None => mret (InvalidCredentials, st)
  end.

End SessionM.

(** One choice of a menu together with what is typed at its prompts, the
    clock and the random draws it consumes. *)
Inductive action :=
  | Initialize
  | Register (inp : register_input)
  | Login (in_username in_password : string)
  | ViewAvailableBikes (in_location : string)
  | BookBike (self : User) (inp : book_input)
             (now : Datetime.datetime) (rnd : nat → nat)
  | ViewBookingStatus (self : User) (in_booking_id : string)
  | MakePayment (self : User) (inp : payment_input)
  | ViewMyBookings (self : User)
  | AddBike (inp : add_input) (rnd : nat → nat)
  | ViewAllBikes
  | UpdateBike (inp : update_input)
  | DeleteBike (inp : delete_input)
  | ViewAllBookings
  | ManageBookings (inp : manage_input)
  | ViewAllCustomers.

Definition perform (a : action) (st : store) : result (outcome * store) :=
  match a with
  | Initialize =>
      st' ← BikeRentalSystem.initialize_files st; mret (Initialized, st')
  | Register inp => SessionM.register_customer inp st
  | Login u p => SessionM.login u p st
  | ViewAvailableBikes l => CustomerM.view_available_bikes l st
  | BookBike self inp now rnd => CustomerM.book_bike self inp now rnd st
  | ViewBookingStatus self i => CustomerM.view_booking_status self i st
  | MakePayment self inp => CustomerM.make_payment self inp st
  | ViewMyBookings self => CustomerM.view_my_bookings self st
  | AddBike inp rnd => AdminM.add_bike inp rnd st
  | ViewAllBikes => AdminM.view_all_bikes st
  | UpdateBike inp => AdminM.update_bike inp st
  | DeleteBike inp => AdminM.delete_bike inp st
  | ViewAllBookings => AdminM.view_all_bookings st
  | ManageBookings inp => AdminM.manage_bookings inp st
  | ViewAllCustomers => AdminM.view_all_customers st
  end.

(** The files an uncaught exception leaves behind.  Every exception is
    raised by a loader before the operation has written anything, except
    that [initialize_files] has by then created the files that were
    missing. *)
Definition files_at_crash (a : action) (st : store) : store :=
  match a with
  | Initialize => BikeRentalSystem.create_missing_files st
  | _ => st
  end.

(** One menu choice; an uncaught exception ends the program. *)
Definition step (a : action) (st : store) : outcome * store :=
  match perform a st with
  | Ok r => r
  | Raise e => (Crashed e, files_at_crash a st)
  end.

(** The files after a sequence of menu choices. *)
Definition run (trace : list action) (st : store) : store :=
  foldl (λ st a, (step a st).2) st trace.

(* ===================================================================== *)
(** * Specification vocabulary                                            *)
(* ===================================================================== *)

(** The three arrows of the booking life cycle. *)
Definition legal_transition (s s' : string) : Prop :=
  (s = "Pending" ∧ s' = "Approved")
  ∨ (s = "Pending" ∧ s' = "Rejected")
  ∨ (s = "Approved" ∧ s' = "Completed").

Definition terminal (s : string) : Prop :=
  s = "Rejected" ∨ s = "Completed".

(** How one menu choice [a] may change the list of bookings. *)
Inductive bookings_change (a : action) (bs : list Booking)
    : list Booking → Prop :=
  | change_none : bookings_change a bs bs
  | change_book self inp now rnd b :
      a = BookBike self inp now rnd →
      status b = "Pending" →
      bookings_change a bs (bs ++ [b])
  | change_manage inp i b s :
      a = ManageBookings inp →
      bs !! i = Some b →
      status b = "Pending" →
      s = "Approved" ∨ s = "Rejected" →
      bookings_change a bs (<[i := BookingM.with_status s b]> bs)
  | change_pay self inp i b :
      a = MakePayment self inp →
      bs !! i = Some b →
      status b = "Approved" →
      customer_username b = UserM.username self →
      bookings_change a bs (<[i := BookingM.with_status "Completed" b]> bs).


(* ===================================================================== *)
(** * A small scenario                                                    *)
(* ===================================================================== *)

(** First start in an empty directory: the admin account and the five
    sample bikes are created. *)
Definition empty_store : store := mk_store Missing Missing Missing.
Definition fresh_store : store := run [Initialize] empty_store.

Definition alice : User :=
  Customer "alice" "secret" "Alice" "555-0100" "alice@example.org".
Definition bob : User :=
  Customer "bob" "hunter2" "Bob" "555-0101" "bob@example.org".

(** On the evening of 2023-12-31 alice books the first Downtown bike from
    2024-01-01 to 2024-01-03; the six draws give the digits 0 to 5. *)
Definition new_years_eve : Datetime.datetime :=
  Datetime.mk_datetime 2023 12 31 18 30 0 0.
Definition count_up (i : nat) : nat := i.
Definition january_request : book_input :=
  mk_book_input "downtown" "2024-01-01" "2024-01-03" "1" "yes".
Definition january_booking : Booking :=
  mk_Booking "BKG012345" "alice" "BIKE0001" "downtown"
             "2024-01-01" "2024-01-03" 75 "Pending".
Definition booked_store : store :=
  run [Initialize; BookBike alice january_request new_years_eve count_up]
      empty_store.

(** The admin approves it. *)
Definition approved_store : store :=
  run [ManageBookings (mk_manage_input "1" "1")] booked_store.

(** Draws that give the digits 0, 0, 0, 1. *)
Definition draw_0001 (i : nat) : nat :=
  match i with
  | 3%nat => 1%nat
  | _ => 0%nat
  end.

(** Two bikes the admin enters, the second with a negative price. *)
Definition new_bike : add_input :=
  mk_add_input "Hero Splendor" "Grey" "MH06KL1122" "18.5" "Suburbs".
Definition cheap_bike : add_input :=
  mk_add_input "TVS Sport" "Green" "MH07MN3344" "-5" "Uptown".

(** The morning of the first rental day. *)
Definition new_years_morning : Datetime.datetime :=
  Datetime.mk_datetime 2024 1 1 9 0 0 0.

(* ===================================================================== *)
(** * Further vocabulary                                                  *)
(* ===================================================================== *)

Definition usernames (users : list User) : list string :=
  map UserM.username users.

(** How one menu choice may change the list of accounts. *)
Inductive users_change (users : list User) : list User → Prop :=
  | users_same : users_change users users
  | users_bootstrap :
      users = [] →
      users_change users [Admin "admin" "admin123"]
  | users_register c :
      UserM.username c ∉ usernames users →
      UserM.user_type c = "customer" →
      users_change users (users ++ [c]).

(** The number of bookings that wait for the admin. *)
Definition pending_count (bookings : list Booking) : nat :=
  length (filter (λ b, status b = "Pending") bookings).

(** The outcomes after which files have been rewritten. *)
Definition reports_success (o : outcome) : bool :=
  match o with
  | BookingSuccessful _ | PaymentSuccessful _ | BikeAdded _
  | BikeUpdated _ _ | BikeDeleted _ | BookingApproved _
  | BookingRejected _ | RegistrationSuccessful _ | Initialized => true
  | _ => false
  end.

(** The choices of the admin menu that edit the inventory, and the first
    start. *)
Definition edits_inventory (a : action) : bool :=
  match a with
  | Initialize | AddBike _ _ | UpdateBike _ | DeleteBike _ => true
  | _ => false
  end.

(** A bike with its availability flag put aside. *)
Definition details (b : Bike) : Bike := BikeM.with_available true b.

(** The extra day of a leap year. *)
Definition leap_day (y : Z) : Z := if Datetime.is_leap y then 1 else 0.

(** A visitor who registers. *)
Definition carol_form : register_input :=
  mk_register_input " carol " "pass123" "Carol" "555-0102" "carol@example.org".

(** [new] is [old] with the availability [v]: the flag has that value and
    every other field is the one of [old]. *)
Definition same_but_available (v : bool) (old new : Bike) : Prop :=
  available new = v
  ∧ bike_id new = bike_id old
  ∧ name new = name old
  ∧ color new = color old
  ∧ plate_number new = plate_number old
  ∧ price_per_day new = price_per_day old
  ∧ location new = location old.

(** What rejecting and paying do to the list of bikes, for the bike id
    [id] of the booking and the flag [v]: the list keeps its length; the
    first bike that carries [id] gets the availability [v] and keeps its
    other fields; every other bike, a later one that carries [id]
    included, is what it was; so when at most one bike carries [id],
    every bike that carries it has the availability [v] afterwards. *)
Definition flag_set_on_first (id : string) (v : bool)
    (bikes bikes' : list Bike) : Prop :=
  length bikes' = length bikes
  ∧ (∀ j bike,
       bikes !! j = Some bike → bike_id bike = id →
       (∀ j' x, (j' < j)%nat → bikes !! j' = Some x → bike_id x ≠ id) →
       ∃ bike', bikes' !! j = Some bike' ∧ same_but_available v bike bike')
  ∧ (∀ j bike,
       bikes !! j = Some bike →
       bike_id bike ≠ id
       ∨ (∃ j' x, (j' < j)%nat ∧ bikes !! j' = Some x ∧ bike_id x = id) →
       bikes' !! j = Some bike)
  ∧ ((∀ j j' x y, bikes !! j = Some x → bikes !! j' = Some y →
                  bike_id x = id → bike_id y = id → j = j') →
     ∀ x, x ∈ bikes' → bike_id x = id → available x = v).

(** Bob asks for the same bike and the same days while the request of
    alice waits (his draws give 0, 0, 0, 1, 0, 0); the admin approves the
    request of alice and she pays. *)
Definition bob_booking : Booking :=
  mk_Booking "BKG000100" "bob" "BIKE0001" "downtown"
             "2024-01-01" "2024-01-03" 75 "Pending".
Definition contested_store : store :=
  run [BookBike bob january_request new_years_eve draw_0001;
       ManageBookings (mk_manage_input "1" "1");
       MakePayment alice (mk_payment_input "BKG012345" "1")]
      booked_store.

Definition yamaha : Bike :=
  mk_Bike "BIKE0001" "Yamaha R15" "Blue" "MH01AB1234" 25 "Downtown" true.
Definition yamaha_out : Bike :=
  mk_Bike "BIKE0001" "Yamaha R15" "Blue" "MH01AB1234" 25 "Downtown" false.

(** The admin rejects the request of alice. *)
Definition rejected_store : store :=
  run [ManageBookings (mk_manage_input "1" "2")] booked_store.

(** After the first start the admin adds a bike in the Suburbs, and the
    draws give it the identifier BIKE0001 that the first sample bike
    has. *)
Definition hero : Bike :=
  mk_Bike "BIKE0001" "Hero Splendor" "Grey" "MH06KL1122" 18.5 "Suburbs" true.
Definition twin_store : store :=
  run [Initialize; AddBike new_bike draw_0001] empty_store.

(** Alice books the second bike offered in the Suburbs, which is the new
    one; the admin approves and she pays. *)
Definition suburbs_request : book_input :=
  mk_book_input "suburbs" "2024-01-01" "2024-01-03" "2" "yes".
Definition suburbs_booking : Booking :=
  mk_Booking "BKG012345" "alice" "BIKE0001" "suburbs"
             "2024-01-01" "2024-01-03" 55.5 "Pending".
Definition twin_paid_store : store :=
  run [BookBike alice suburbs_request new_years_eve count_up;
       ManageBookings (mk_manage_input "1" "1");
       MakePayment alice (mk_payment_input "BKG012345" "1")]
      twin_store.

(* ===================================================================== *)
(** * The persistence layer                                               *)
(* ===================================================================== *)

Section Persistence.

Import BikeRentalSystem.

Lemma mapM_from_to {A} (to_dict : A → json) (from_dict : json → result A) :
  (∀ x, from_dict (to_dict x) = Ok x) →
  ∀ l, mapM from_dict (map to_dict l) = Ok l.
Proof.
  intros Hft l. induction l as [|x l IH]; [reflexivity|].
  cbn. rewrite Hft. cbn. rewrite IH. reflexivity.
Qed.

Lemma Bike_from_to_dict b : BikeM.from_dict (BikeM.to_dict b) = Ok b.
Proof. destruct b. reflexivity. Qed.

Lemma Booking_from_to_dict b : BookingM.from_dict (BookingM.to_dict b) = Ok b.
Proof. destruct b. reflexivity. Qed.

Lemma load_save_bikes bikes st : load_bikes (save_bikes bikes st) = Ok bikes.
Proof. apply (mapM_from_to _ _ Bike_from_to_dict). Qed.

Lemma load_save_bookings bookings st :
  load_bookings (save_bookings bookings st) = Ok bookings.
Proof. apply (mapM_from_to _ _ Booking_from_to_dict). Qed.

Lemma load_bookings_save_bikes bikes st :
  load_bookings (save_bikes bikes st) = load_bookings st.
Proof. reflexivity. Qed.

Lemma load_bikes_save_bookings bookings st :
  load_bikes (save_bookings bookings st) = load_bikes st.
Proof. reflexivity. Qed.

Lemma load_bookings_save_users users st :
  load_bookings (save_users users st) = load_bookings st.
Proof. reflexivity. Qed.

Lemma load_bikes_save_users users st :
  load_bikes (save_users users st) = load_bikes st.
Proof. reflexivity. Qed.

Lemma load_create_if_missing {A} (from_dict : json → result A) f :
  load from_dict (create_if_missing f) = load from_dict f.
Proof. destruct f; reflexivity. Qed.

Lemma load_bikes_save_all bikes bookings st :
  load_bikes (save_all_data bikes bookings st) = Ok bikes.
Proof. exact (load_save_bikes bikes st). Qed.

Lemma load_bookings_save_all bikes bookings st :
  load_bookings (save_all_data bikes bookings st) = Ok bookings.
Proof. exact (load_save_bookings bookings (save_bikes bikes st)). Qed.

End Persistence.

(* ===================================================================== *)
(** * Lists shared between a collection and a selection of it             *)
(* ===================================================================== *)

Lemma filter_pos_lookup {A} (P : A → Prop) `{∀ x, Decision (P x)}
    (l : list A) k i x :
  filter_pos P l !! k = Some (i, x) → l !! i = Some x ∧ P x.
Proof.
  intros Hk. apply list_elem_of_lookup_2 in Hk.
  apply list_elem_of_filter in Hk as [HP Hin].
  apply elem_of_lookup_imap in Hin as (j & y & Heq & Hj).
  simplify_eq/=. done.
Qed.

Lemma find_own_lookup self id bookings i b :
  CustomerM.find_own self id bookings = Some (i, b) →
  bookings !! i = Some b ∧ booking_id b = id
  ∧ customer_username b = UserM.username self.
Proof.
  unfold CustomerM.find_own. intros (? & [? ?] & _)%list_find_Some. done.
Qed.

Lemma set_first_available_length id v bikes :
  length (set_first_available id v bikes) = length bikes.
Proof.
  unfold set_first_available. destruct (list_find _ bikes) as [[i b]|]; [|done].
  apply length_insert.
Qed.

(* ===================================================================== *)
(** * Symbolic execution of the operations                                *)
(* ===================================================================== *)

#[local] Arguments Py.int : simpl never.
#[local] Arguments Py.float : simpl never.
#[local] Arguments Py.strip : simpl never.
#[local] Arguments Py.lower : simpl never.
#[local] Arguments Py.choices : simpl never.
#[local] Arguments Py.float_of_int : simpl never.
#[local] Arguments Datetime.strptime : simpl never.
#[local] Arguments Datetime.gtb : simpl never.
#[local] Arguments Datetime.ltb : simpl never.
#[local] Arguments Datetime.sub_days : simpl never.
#[local] Arguments String.eqb : simpl never.
#[local] Arguments Z.leb : simpl never.
#[local] Arguments Z.eqb : simpl never.
#[local] Arguments BikeRentalSystem.load_bikes : simpl never.
#[local] Arguments BikeRentalSystem.load_bookings : simpl never.
#[local] Arguments BikeRentalSystem.load_users : simpl never.
#[local] Arguments BikeRentalSystem.save_bikes : simpl never.
#[local] Arguments BikeRentalSystem.save_bookings : simpl never.
#[local] Arguments BikeRentalSystem.save_users : simpl never.
#[local] Arguments BikeRentalSystem.save_all_data : simpl never.
#[local] Arguments filter_pos : simpl never.
#[local] Arguments set_first_available : simpl never.

(** Splits on the next test an operation makes. *)
Ltac exec_step :=
  match goal with
  | H : context [mbind _ ?m] |- _ =>
      lazymatch m with
      | context [mbind] => fail
      | _ => let E := fresh "E" in destruct m eqn:E; simpl in H
      end
  | H : context [@mret result _ ?A ?x] |- _ =>
      change (@mret result _ A x) with (@Ok A x) in H
  | H : Ok _ = Ok _ |- _ => injection H as H; subst
  | H : (_, _) = (_, _) |- _ => injection H as H; subst
  | H : Raise _ = Ok _ |- _ => discriminate H
  | H : context [match ?x with _ => _ end] |- _ =>
      let E := fresh "E" in destruct x eqn:E; simpl in H
  end.

Ltac exec := repeat exec_step.

Section Bookings.

Import BikeRentalSystem.

(** Closes a goal [load_bookings st' = Ok bs] when [st'] differs from a
    store with these bookings in other files only. *)
Ltac bookings_untouched :=
  unfold load_bookings, save_bikes, save_users, create_missing_files in *;
  simpl; rewrite ?load_create_if_missing; done.

Lemma perform_bookings a st bs o st' :
  load_bookings st = Ok bs →
  perform a st = Ok (o, st') →
  ∃ bs', load_bookings st' = Ok bs' ∧ bookings_change a bs bs'.
Proof.
  intros Hbs Hp.
  assert (Hsame : ∀ st0, load_bookings st0 = Ok bs →
            ∃ bs', load_bookings st0 = Ok bs' ∧ bookings_change a bs bs').
  { intros st0 H0. exists bs. split; [done | constructor]. }
  destruct a; simpl in Hp.
  - unfold initialize_files in Hp. exec; apply Hsame; bookings_untouched.
  - unfold SessionM.register_customer in Hp. exec; apply Hsame;
      bookings_untouched.
  - unfold SessionM.login in Hp. exec; eauto.
  - unfold CustomerM.view_available_bikes in Hp. exec; eauto.
  - unfold CustomerM.book_bike in Hp. exec; eauto.
    match goal with H : save_booking _ _ = Ok _ |- _ =>
      unfold save_booking in H; rewrite Hbs in H; simpl in H;
      injection H as <- end.
    eexists. split; [apply load_save_bookings|].
    eapply change_book; done.
  - unfold CustomerM.view_booking_status in Hp. exec; eauto.
  - unfold CustomerM.make_payment in Hp. rewrite Hbs in Hp. simpl in Hp.
    exec; eauto.
    match goal with H : CustomerM.find_own _ _ _ = Some _ |- _ =>
      apply find_own_lookup in H as (Hi & _ & Hown) end.
    eexists. split; [apply load_bookings_save_all|].
    eapply change_pay; try done.
    match goal with H : negb _ = false |- _ =>
      apply negb_false_iff, String.eqb_eq in H end.
    done.
  - unfold CustomerM.view_my_bookings in Hp. exec; eauto.
  - unfold AdminM.add_bike in Hp. exec; apply Hsame; bookings_untouched.
  - unfold AdminM.view_all_bikes in Hp. exec; eauto.
  - unfold AdminM.update_bike in Hp. exec; apply Hsame; bookings_untouched.
  - unfold AdminM.delete_bike in Hp. exec; apply Hsame; bookings_untouched.
  - unfold AdminM.view_all_bookings in Hp. exec; eauto.
  - unfold AdminM.manage_bookings in Hp. rewrite Hbs in Hp. simpl in Hp.
    exec; eauto;
      match goal with
      | E : filter_pos _ _ = _, H : _ !! _ = Some (_, _) |- _ =>
          rewrite <- E in H; apply filter_pos_lookup in H as [Hi Hpend]
      end.
    all: eexists; split;
      [ first [apply load_save_bookings | apply load_bookings_save_all]
      | eapply change_manage; eauto ].
  - unfold AdminM.view_all_customers in Hp. exec; eauto.
Qed.

End Bookings.

Section Lifecycle.

Import BikeRentalSystem.

Lemma step_bookings a st bs :
  load_bookings st = Ok bs →
  ∃ bs', load_bookings (step a st).2 = Ok bs' ∧ bookings_change a bs bs'.
Proof.
  intros Hbs. unfold step. destruct (perform a st) as [[o st']|e] eqn:Hp.
  - exact (perform_bookings a st bs o st' Hbs Hp).
  - exists bs. split; [|constructor]. simpl.
    destruct a; try exact Hbs.
    unfold load_bookings, create_missing_files. simpl.
    by rewrite load_create_if_missing.
Qed.

Lemma bookings_change_lookup a bs bs' i b :
  bookings_change a bs bs' →
  bs !! i = Some b →
  ∃ b', bs' !! i = Some b'
    ∧ (b' = b
       ∨ ((∃ inp, a = ManageBookings inp) ∧ status b = "Pending"
          ∧ (b' = BookingM.with_status "Approved" b
             ∨ b' = BookingM.with_status "Rejected" b))
       ∨ ((∃ self inp, a = MakePayment self inp) ∧ status b = "Approved"
          ∧ b' = BookingM.with_status "Completed" b)).
Proof.
  intros Hch Hi. destruct Hch as [|self inp now rnd b0 -> Hs
                                  |inp j b0 s -> Hj Hs Hor
                                  |self inp j b0 -> Hj Hs Hown].
  - eauto.
  - exists b. split; [by apply lookup_app_l_Some | by left].
  - destruct (decide (j = i)) as [->|Hne].
    + simplify_eq. eexists. split.
      { apply list_lookup_insert_eq. by eapply lookup_lt_Some. }
      right; left. split_and!; [by eexists | done |].
      destruct Hor as [-> | ->]; [by left | by right].
    + exists b. split; [by rewrite list_lookup_insert_ne | by left].
  - destruct (decide (j = i)) as [->|Hne].
    + simplify_eq. eexists. split.
      { apply list_lookup_insert_eq. by eapply lookup_lt_Some. }
      right; right. split_and!; [by do 2 eexists | done | done].
    + exists b. split; [by rewrite list_lookup_insert_ne | by left].
Qed.

Lemma terminal_not_active s :
  terminal s → s ≠ "Pending" ∧ s ≠ "Approved".
Proof. intros [-> | ->]; split; discriminate. Qed.

Lemma step_terminal a st bs i b :
  load_bookings st = Ok bs →
  bs !! i = Some b →
  terminal (status b) →
  ∃ bs', load_bookings (step a st).2 = Ok bs' ∧ bs' !! i = Some b.
Proof.
  intros Hbs Hi Ht. destruct (step_bookings a st bs Hbs) as (bs' & Hbs' & Hch).
  exists bs'. split; [done|].
  destruct (bookings_change_lookup a bs bs' i b Hch Hi) as (b' & Hi' & Hcase).
  apply terminal_not_active in Ht as [Hp Ha].
  destruct Hcase as [-> | [(_ & Hs & _) | (_ & Hs & _)]]; done.
Qed.

Lemma run_terminal trace : ∀ st bs i b,
  load_bookings st = Ok bs →
  bs !! i = Some b →
  terminal (status b) →
  ∃ bs', load_bookings (run trace st) = Ok bs' ∧ bs' !! i = Some b.
Proof.
  induction trace as [|a trace IH]; intros st bs i b Hbs Hi Ht.
  - exists bs. done.
  - destruct (step_terminal a st bs i b Hbs Hi Ht) as (bs1 & Hbs1 & Hi1).
    exact (IH _ bs1 i b Hbs1 Hi1 Ht).
Qed.

(** C1. Whatever is chosen in a menu, a stored booking either stays as it
    is or has its status moved along one of the three arrows Pending to
    Approved, Pending to Rejected (both only by the admin's approve/reject
    dialogue, only from Pending) and Approved to Completed (only by the
    payment dialogue, only from Approved), every other field kept; and a
    booking that is Rejected or Completed is never changed again by any
    sequence of operations. *)
Theorem status_transitions_are_legal (a : action) (st : store)
    (bookings : list Booking) :
  load_bookings st = Ok bookings →
  (∃ bookings',
     load_bookings (step a st).2 = Ok bookings'
     ∧ ∀ i b, bookings !! i = Some b →
         ∃ b', bookings' !! i = Some b'
           ∧ (b' = b
              ∨ (b' = BookingM.with_status (status b') b
                 ∧ legal_transition (status b) (status b')
                 ∧ (status b = "Pending" → ∃ inp, a = ManageBookings inp)
                 ∧ (status b = "Approved" → ∃ self inp, a = MakePayment self inp))))
  ∧ (∀ trace i b, bookings !! i = Some b → terminal (status b) →
       ∃ bookings', load_bookings (run trace st) = Ok bookings'
                    ∧ bookings' !! i = Some b).
Proof.
  intros Hbs. split.
  - destruct (step_bookings a st bookings Hbs) as (bs' & Hbs' & Hch).
    exists bs'. split; [done|]. intros i b Hi.
    destruct (bookings_change_lookup a _ _ i b Hch Hi) as (b' & Hi' & Hcase).
    exists b'. split; [done|].
    destruct Hcase as [-> | [(Ha & Hs & Hb') | (Ha & Hs & ->)]]; [by left | |].
    + right. unfold legal_transition.
      destruct Hb' as [-> | ->]; simpl; rewrite Hs.
      * split_and!; [done | by left | done | discriminate].
      * split_and!; [done | by right; left | done | discriminate].
    + right. unfold legal_transition. simpl. rewrite Hs.
      split_and!; [done | by right; right | discriminate | done].
  - intros trace i b Hi Ht. by eapply run_terminal.
Qed.

End Lifecycle.

Section Forward.

Import BikeRentalSystem.

(** A position that exists is below the length, also through [Z]. *)
Lemma choice_in_range {A} (l : list A) (k : Z) x :
  1 ≤ k →
  l !! Z.to_nat (k - 1) = Some x →
  (k =? 0) = false ∧ ((1 <=? k) && (k <=? Z.of_nat (length l))) = true.
Proof.
  intros Hk Hl. apply lookup_lt_Some in Hl. split.
  - apply Z.eqb_neq. lia.
  - apply andb_true_iff. split; apply Z.leb_le; lia.
Qed.

Lemma manage_select st bookings inp k i b :
  load_bookings st = Ok bookings →
  Py.int (in_booking_number inp) = Some k →
  1 ≤ k →
  filter_pos (λ b, status b = "Pending") bookings !! Z.to_nat (k - 1)
    = Some (i, b) →
  AdminM.manage_bookings inp st =
    if String.eqb (in_action inp) "1" then
      Ok (BookingApproved (booking_id b),
          save_bookings (<[i := BookingM.with_status "Approved" b]> bookings) st)
    else if String.eqb (in_action inp) "2" then
      bikes ← load_bikes st;
      Ok (BookingRejected (booking_id b),
          save_all_data (set_first_available (booked_bike_id b) true bikes)
            (<[i := BookingM.with_status "Rejected" b]> bookings) st)
    else Ok (ActionCancelled, st).
Proof.
  intros Hbs Hint Hk Hsel. unfold AdminM.manage_bookings.
  rewrite Hbs. simpl.
  destruct (choice_in_range _ k _ Hk Hsel) as [H0 Hr].
  destruct (filter_pos _ bookings) as [|p l] eqn:Hf; [done|].
  rewrite Hint, H0, Hr, Hsel. reflexivity.
Qed.

Lemma payment_select self st bookings inp i b :
  load_bookings st = Ok bookings →
  CustomerM.find_own self (Py.strip (in_pay_booking_id inp)) bookings
    = Some (i, b) →
  status b = "Approved" →
  in_pay_method inp = "1" ∨ in_pay_method inp = "2" ∨ in_pay_method inp = "3" →
  CustomerM.make_payment self inp st =
    (bikes ← load_bikes st;
     Ok (PaymentSuccessful (Py.strip (in_pay_booking_id inp)),
         save_all_data (set_first_available (booked_bike_id b) false bikes)
           (<[i := BookingM.with_status "Completed" b]> bookings) st)).
Proof.
  intros Hbs Hfind Hs Hm. unfold CustomerM.make_payment.
  rewrite Hbs. simpl. rewrite Hfind, Hs. simpl.
  destruct Hm as [-> | [-> | ->]]; reflexivity.
Qed.

Lemma set_first_available_found id v bikes i bike :
  list_find (λ b, bike_id b = id) bikes = Some (i, bike) →
  set_first_available id v bikes = <[i := BikeM.with_available v bike]> bikes.
Proof. intros H. unfold set_first_available. by rewrite H. Qed.

Lemma set_first_available_absent id v bikes :
  list_find (λ b, bike_id b = id) bikes = None →
  set_first_available id v bikes = bikes.
Proof. intros H. unfold set_first_available. by rewrite H. Qed.

(** What the loop with [break] achieves: the first bike carrying the id
    gets the flag, every other position is as before. *)
Lemma set_first_available_lookup id v bikes j :
  set_first_available id v bikes !! j =
    match list_find (λ b, bike_id b = id) bikes with
    | Some (i, bike) =>
        if decide (i = j) then Some (BikeM.with_available v bike)
        else bikes !! j
    | None => bikes !! j
    end.
Proof.
  unfold set_first_available.
  destruct (list_find _ bikes) as [[i bike]|] eqn:Hf; [|done].
  apply list_find_Some in Hf as (Hi & _ & _).
  case_decide as Hij.
  - subst. apply list_lookup_insert_eq. by eapply lookup_lt_Some.
  - by apply list_lookup_insert_ne.
Qed.

Lemma with_available_same v bike :
  same_but_available v bike (BikeM.with_available v bike).
Proof. by destruct bike. Qed.

Lemma set_first_available_flag id v bikes :
  flag_set_on_first id v bikes (set_first_available id v bikes).
Proof.
  unfold flag_set_on_first. split_and!.
  - apply set_first_available_length.
  - intros j bike Hj Hid Hfirst.
    assert (Hf : list_find (λ x, bike_id x = id) bikes = Some (j, bike)).
    { apply list_find_Some. split_and!; [done | done |].
      intros j' x Hx Hlt. by apply (Hfirst j' x). }
    exists (BikeM.with_available v bike). split.
    + rewrite set_first_available_lookup, Hf. by rewrite decide_True.
    + apply with_available_same.
  - intros j bike Hj Hcase. rewrite set_first_available_lookup.
    destruct (list_find _ bikes) as [[i b0]|] eqn:Hf; [|done].
    case_decide as Hij; [|done]. subst i.
    apply list_find_Some in Hf as (Hi & Hp & Hmin).
    destruct Hcase as [Hne | (j' & x & Hlt & Hx & Hxid)].
    + rewrite Hj in Hi. injection Hi as <-. done.
    + by destruct (Hmin j' x Hx Hlt).
  - intros Huniq x Hx Hxid.
    apply list_elem_of_lookup_1 in Hx as [j Hj].
    rewrite set_first_available_lookup in Hj.
    destruct (list_find _ bikes) as [[i b0]|] eqn:Hf.
    + apply list_find_Some in Hf as (Hi & Hp & _).
      case_decide as Hij.
      * injection Hj as <-. by destruct b0.
      * destruct Hij. by apply (Huniq i j b0 x).
    + apply list_find_None in Hf.
      by destruct (Forall_lookup_1 _ _ _ _ Hf Hj).
Qed.

End Forward.

Section Claims.

Import BikeRentalSystem.

(** C9. Saving a collection of bikes or of bookings and loading it again
    gives back the same records in the same order; this also holds for the
    two other ways the program writes bookings ([save_booking], which
    appends one booking to what is stored, and [save_all_data]). *)
Theorem save_then_load_round_trip (st : store) (bikes : list Bike)
    (bookings : list Booking) (booking : Booking) :
  load_bikes (save_bikes bikes st) = Ok bikes
  ∧ load_bookings (save_bookings bookings st) = Ok bookings
  ∧ (save_booking booking (save_bookings bookings st) ≫= load_bookings)
    = Ok (bookings ++ [booking])%list
  ∧ load_bikes (save_all_data bikes bookings st) = Ok bikes
  ∧ load_bookings (save_all_data bikes bookings st) = Ok bookings.
Proof.
  split_and!.
  - apply load_save_bikes.
  - apply load_save_bookings.
  - unfold save_booking. rewrite load_save_bookings. simpl.
    apply load_save_bookings.
  - apply load_bikes_save_all.
  - apply load_bookings_save_all.
Qed.

(** C2 (as amended). Rejecting the selected Pending booking sets the
    availability flag to [true], and paying an Approved booking sets it to
    [false], on the first stored bike that carries the booking's bike id:
    that bike keeps its other fields and every other bike, a later one
    with the same id included, is left as it was, so that the flag of
    every bike with the id has the value when at most one bike carries
    it.  In both cases the updated bikes and the updated bookings are
    written together and are what is loaded afterwards. *)
Theorem reject_and_payment_set_availability :
  (∀ st bookings bikes inp k i b,
     load_bookings st = Ok bookings →
     load_bikes st = Ok bikes →
     Py.int (in_booking_number inp) = Some k → 1 ≤ k →
     filter_pos (λ b, status b = "Pending") bookings !! Z.to_nat (k - 1)
       = Some (i, b) →
     in_action inp = "2" →
     ∃ bikes',
       let bookings' := <[i := BookingM.with_status "Rejected" b]> bookings in
       let st' := save_all_data bikes' bookings' st in
       status b = "Pending"
       ∧ step (ManageBookings inp) st = (BookingRejected (booking_id b), st')
       ∧ load_bikes st' = Ok bikes'
       ∧ load_bookings st' = Ok bookings'
       ∧ flag_set_on_first (booked_bike_id b) true bikes bikes')
  ∧ (∀ self st bookings bikes inp i b,
       load_bookings st = Ok bookings →
       load_bikes st = Ok bikes →
       CustomerM.find_own self (Py.strip (in_pay_booking_id inp)) bookings
         = Some (i, b) →
       status b = "Approved" →
       in_pay_method inp = "1" ∨ in_pay_method inp = "2"
         ∨ in_pay_method inp = "3" →
       ∃ bikes',
         let bookings' :=
           <[i := BookingM.with_status "Completed" b]> bookings in
         let st' := save_all_data bikes' bookings' st in
         step (MakePayment self inp) st
           = (PaymentSuccessful (Py.strip (in_pay_booking_id inp)), st')
         ∧ load_bikes st' = Ok bikes'
         ∧ load_bookings st' = Ok bookings'
         ∧ flag_set_on_first (booked_bike_id b) false bikes bikes').
Proof.
  split.
  - intros st bookings bikes inp k i b Hbs Hbk Hint Hk Hsel Hact.
    exists (set_first_available (booked_bike_id b) true bikes).
    split_and!.
    + by apply filter_pos_lookup in Hsel as [_ ?].
    + unfold step. simpl.
      rewrite (manage_select st bookings inp k i b Hbs Hint Hk Hsel).
      rewrite Hact, Hbk. reflexivity.
    + apply load_bikes_save_all.
    + apply load_bookings_save_all.
    + apply set_first_available_flag.
  - intros self st bookings bikes inp i b Hbs Hbk Hfind Hs Hm.
    exists (set_first_available (booked_bike_id b) false bikes).
    split_and!.
    + unfold step. simpl.
      rewrite (payment_select self st bookings inp i b Hbs Hfind Hs Hm).
      rewrite Hbk. reflexivity.
    + apply load_bikes_save_all.
    + apply load_bookings_save_all.
    + apply set_first_available_flag.
Qed.


(** C8. When every stored booking with the requested id belongs to another
    customer, both the status view and the payment dialogue answer that no
    booking was found and leave the files alone; and a booking that the
    status view shows always carries the acting customer's username. *)
Theorem customer_cannot_reach_foreign_booking (self : User) (st : store)
    (bookings : list Booking) :
  load_bookings st = Ok bookings →
  (∀ in_booking_id,
     (∀ b, b ∈ bookings → booking_id b = Py.strip in_booking_id →
           customer_username b ≠ UserM.username self) →
     CustomerM.find_own self (Py.strip in_booking_id) bookings = None
     ∧ step (ViewBookingStatus self in_booking_id) st
       = (NoBookingFound (Py.strip in_booking_id), st)
     ∧ ∀ method,
         step (MakePayment self (mk_payment_input in_booking_id method)) st
         = (NoBookingFound (Py.strip in_booking_id), st))
  ∧ (∀ in_booking_id b st',
       step (ViewBookingStatus self in_booking_id) st = (BookingShown b, st') →
       b ∈ bookings ∧ booking_id b = Py.strip in_booking_id
       ∧ customer_username b = UserM.username self)
  ∧ (∀ inp i b,
       CustomerM.find_own self (Py.strip (in_pay_booking_id inp)) bookings
         = Some (i, b) →
       customer_username b = UserM.username self).
Proof.
  intros Hbs. split_and!.
  - intros in_id Hforeign.
    assert (Hnone : CustomerM.find_own self (Py.strip in_id) bookings = None).
    { apply list_find_None, Forall_forall. intros b Hb [Hid Hown].
      by apply (Hforeign b). }
    split_and!; [done | |].
    + unfold step. simpl. unfold CustomerM.view_booking_status.
      rewrite Hbs. simpl. by rewrite Hnone.
    + intros method. unfold step. simpl. unfold CustomerM.make_payment.
      rewrite Hbs. simpl. by rewrite Hnone.
  - intros in_id b st'. unfold step. simpl.
    unfold CustomerM.view_booking_status. rewrite Hbs. simpl.
    destruct (CustomerM.find_own _ _ _) as [[i b0]|] eqn:Hf; [|done].
    intros [= -> _]. apply find_own_lookup in Hf as (Hi & ? & ?).
    split_and!; [by eapply list_elem_of_lookup_2 | done | done].
  - intros inp i b Hf. by apply find_own_lookup in Hf as (_ & _ & ?).
Qed.

End Claims.

Section Dates.

(** [strptime] with a format that has no time directive gives midnight. *)
Lemma strptime_midnight s t :
  Datetime.strptime s = Some t →
  Datetime.hour t = 0 ∧ Datetime.minute t = 0
  ∧ Datetime.second t = 0 ∧ Datetime.microsecond t = 0.
Proof.
  unfold Datetime.strptime. intros H.
  destruct (Datetime.field_Y s) as [[y s1]|]; simpl in H; [|done].
  destruct (Datetime.dash s1) as [s2|]; simpl in H; [|done].
  destruct (Datetime.field_m s2) as [[m s3]|]; simpl in H; [|done].
  destruct (Datetime.dash s3) as [s4|]; simpl in H; [|done].
  destruct (Datetime.field_d s4) as [[d s5]|]; simpl in H; [|done].
  destruct s5; [|done].
  destruct (Datetime.valid_date y m d); [|done].
  by injection H as <-.
Qed.

(** Between two midnights the difference in days is the difference of
    the ordinals. *)
Lemma sub_days_midnight s1 s2 a b :
  Datetime.strptime s1 = Some a →
  Datetime.strptime s2 = Some b →
  Datetime.sub_days a b = Datetime.toordinal a - Datetime.toordinal b.
Proof.
  intros (Ha1 & Ha2 & Ha3 & Ha4)%strptime_midnight
         (Hb1 & Hb2 & Hb3 & Hb4)%strptime_midnight.
  unfold Datetime.sub_days.
  rewrite Ha1, Ha2, Ha3, Ha4, Hb1, Hb2, Hb3, Hb4.
  match goal with |- context [?x `div` ?y] => change (x `div` y) with 0 end.
  lia.
Qed.

End Dates.

Section Booking.

Import BikeRentalSystem.

(** The path of [book_bike] that stores a booking. *)
Lemma book_select self inp now rnd st bikes bookings from_dt to_dt k bike :
  Datetime.strptime (Py.strip (in_from_date inp)) = Some from_dt →
  Datetime.strptime (Py.strip (in_to_date inp)) = Some to_dt →
  Datetime.gtb from_dt to_dt = false →
  Datetime.ltb from_dt now = false →
  load_bikes st = Ok bikes →
  Py.int (in_bike_number inp) = Some k → 1 ≤ k →
  filter (λ b, available b = true
               ∧ CustomerM.same_location (Py.strip (in_pickup_location inp)) b)
         bikes !! Z.to_nat (k - 1) = Some bike →
  Py.lower (in_confirm_booking inp) = "yes" →
  load_bookings st = Ok bookings →
  let booking :=
    mk_Booking ("BKG" +:+ Py.choices Py.digits 6 rnd) (UserM.username self)
      (bike_id bike) (Py.strip (in_pickup_location inp))
      (Py.strip (in_from_date inp)) (Py.strip (in_to_date inp))
      (price_per_day bike
       * Py.float_of_int (Datetime.toordinal to_dt
                          - Datetime.toordinal from_dt + 1))%float
      "Pending" in
  CustomerM.book_bike self inp now rnd st
  = Ok (BookingSuccessful (booking_id booking),
        save_bookings (bookings ++ [booking]) st).
Proof.
  intros Hf Ht Hgt Hlt Hbk Hint Hk Hsel Hyes Hbs booking.
  unfold CustomerM.book_bike. rewrite Hf, Ht, Hgt, Hlt, Hbk. simpl.
  destruct (choice_in_range _ k _ Hk Hsel) as [_ Hr].
  destruct (filter _ bikes) as [|x l] eqn:Hfl; [done|].
  rewrite Hint, Hr, Hsel, Hyes. simpl.
  unfold save_booking. rewrite Hbs. simpl.
  rewrite (sub_days_midnight _ _ _ _ Ht Hf). reflexivity.
Qed.

End Booking.

Section BookingAmount.

Import BikeRentalSystem.

Lemma step_total_amount a st bookings i b :
  load_bookings st = Ok bookings →
  bookings !! i = Some b →
  ∃ bookings' b',
    load_bookings (step a st).2 = Ok bookings'
    ∧ bookings' !! i = Some b'
    ∧ total_amount b' = total_amount b.
Proof.
  intros Hbs Hi.
  destruct (step_bookings a st bookings Hbs) as (bs' & Hbs' & Hch).
  destruct (bookings_change_lookup a _ _ i b Hch Hi) as (b' & Hi' & Hcase).
  exists bs', b'. split_and!; [done | done |].
  destruct Hcase as [-> | [(_ & _ & [-> | ->]) | (_ & _ & ->)]]; done.
Qed.

(** C3. A booking that [book_bike] stores carries as total amount the
    selected bike's price per day multiplied by the inclusive number of
    days, that is the ordinal of the to-date minus the ordinal of the
    from-date plus one; no later operation changes the total amount of a
    stored booking; and booking the 25-a-day bike from 2024-01-01 to
    2024-01-03 stores the total amount 75. *)
Theorem total_amount_is_price_times_inclusive_days :
  (∀ self inp now rnd st bikes bookings from_dt to_dt k bike,
     Datetime.strptime (Py.strip (in_from_date inp)) = Some from_dt →
     Datetime.strptime (Py.strip (in_to_date inp)) = Some to_dt →
     Datetime.gtb from_dt to_dt = false →
     Datetime.ltb from_dt now = false →
     load_bikes st = Ok bikes →
     Py.int (in_bike_number inp) = Some k → 1 ≤ k →
     filter (λ b, available b = true
                  ∧ CustomerM.same_location
                      (Py.strip (in_pickup_location inp)) b)
            bikes !! Z.to_nat (k - 1) = Some bike →
     Py.lower (in_confirm_booking inp) = "yes" →
     load_bookings st = Ok bookings →
     let rental_days :=
       Datetime.toordinal to_dt - Datetime.toordinal from_dt + 1 in
     ∃ booking,
       step (BookBike self inp now rnd) st
       = (BookingSuccessful (booking_id booking),
          save_bookings (bookings ++ [booking]) st)
       ∧ load_bookings (save_bookings (bookings ++ [booking]) st)
         = Ok (bookings ++ [booking])%list
       ∧ booked_bike_id booking = bike_id bike
       ∧ from_date booking = Py.strip (in_from_date inp)
       ∧ to_date booking = Py.strip (in_to_date inp)
       ∧ status booking = "Pending"
       ∧ total_amount booking
         = (price_per_day bike * Py.float_of_int rental_days)%float)
  ∧ (∀ a st bookings i b,
       load_bookings st = Ok bookings →
       bookings !! i = Some b →
       ∃ bookings' b',
         load_bookings (step a st).2 = Ok bookings'
         ∧ bookings' !! i = Some b'
         ∧ total_amount b' = total_amount b)
  ∧ (∃ bike,
       load_bikes fresh_store ≫= (λ bikes, Ok (bikes !! 0%nat)) = Ok (Some bike)
       ∧ price_per_day bike = 25%float
       ∧ load_bookings
           (step (BookBike alice january_request new_years_eve count_up)
                 fresh_store).2
         = Ok [mk_Booking "BKG012345" "alice" (bike_id bike) "downtown"
                 "2024-01-01" "2024-01-03" 75 "Pending"]).
Proof.
  split_and!.
  - intros self inp now rnd st bikes bookings from_dt to_dt k bike
           Hf Ht Hgt Hlt Hbk Hint Hk Hsel Hyes Hbs rental_days.
    eexists. split_and!.
    + unfold step. simpl.
      rewrite (book_select self inp now rnd st bikes bookings from_dt to_dt
                 k bike Hf Ht Hgt Hlt Hbk Hint Hk Hsel Hyes Hbs).
      reflexivity.
    + apply load_save_bookings.
    + reflexivity.
    + reflexivity.
    + reflexivity.
    + reflexivity.
    + reflexivity.
  - exact step_total_amount.
  - eexists. split_and!; vm_compute; reflexivity.
Qed.

End BookingAmount.

Section Deletion.

Import BikeRentalSystem.

Lemma filter_none {A} (P : A → Prop) `{∀ x, Decision (P x)} (l : list A) :
  filter P l = [] ↔ ∀ x, x ∈ l → ¬ P x.
Proof.
  split.
  - intros Hnil x Hx HP. by eapply filter_nil_not_elem_of.
  - intros Hall. induction l as [|x l IH]; [done|].
    rewrite filter_cons_False.
    + apply IH. intros y Hy. apply Hall. by right.
    + apply Hall. by left.
Qed.

Lemma filter_all {A} (P : A → Prop) `{∀ x, Decision (P x)} (l : list A) :
  (∀ x, x ∈ l → P x) → filter P l = l.
Proof.
  intros Hall. induction l as [|x l IH]; [done|].
  rewrite filter_cons_True; [|apply Hall; by left].
  f_equal. apply IH. intros y Hy. apply Hall. by right.
Qed.

(** Removing by id removes one record when one record carries the id. *)
Lemma filter_other_ids_delete id (bikes : list Bike) : ∀ i bike,
  bikes !! i = Some bike →
  bike_id bike = id →
  (∀ j b, bikes !! j = Some b → bike_id b = id → j = i) →
  filter (λ b, bike_id b ≠ id) bikes = delete i bikes.
Proof.
  induction bikes as [|x l IH]; intros i bike Hi Hid Huniq; [done|].
  destruct i as [|i]; simpl in *.
  - injection Hi as ->. rewrite filter_cons_False; [|by intros ?].
    apply filter_all. intros y Hy Hy'.
    apply list_elem_of_lookup_1 in Hy as [j Hj].
    by specialize (Huniq (S j) y Hj Hy').
  - rewrite filter_cons_True.
    + f_equal. apply (IH i bike Hi Hid).
      intros j b Hj Hb. by specialize (Huniq (S j) b Hj Hb) as [= ->].
    + intros Hx. by specialize (Huniq 0%nat x eq_refl Hx).
Qed.

Lemma delete_select st bikes bookings inp i bike :
  load_bikes st = Ok bikes →
  load_bookings st = Ok bookings →
  list_find (λ b, bike_id b = Py.strip (in_delete_bike_id inp)) bikes
    = Some (i, bike) →
  Py.lower (in_confirm_delete inp) = "yes" →
  step (DeleteBike inp) st =
    match filter (AdminM.active_for (Py.strip (in_delete_bike_id inp)))
                 bookings with
    | [] => (BikeDeleted (Py.strip (in_delete_bike_id inp)),
             save_bikes
               (filter (λ b, bike_id b ≠ Py.strip (in_delete_bike_id inp)) bikes)
               st)
    | b :: l => (CannotDeleteBike (length (b :: l)), st)
    end.
Proof.
  intros Hbk Hbs Hf Hyes. unfold step. simpl. unfold AdminM.delete_bike.
  rewrite Hbk. simpl. rewrite Hf, Hyes. simpl. rewrite Hbs. simpl.
  by destruct (filter _ bookings).
Qed.

(** C4 (as amended). For a bike id that is on file and a confirmed
    deletion: the deletion is refused, reporting the number of active bookings and
    leaving the files as they are, exactly when some Pending or Approved
    booking refers to the id; otherwise (in particular when every booking
    that refers to the id is Completed or Rejected) it succeeds and the
    stored collection becomes the old one without the records carrying
    that id, every other bike kept in place and order; when one record
    carries the id, that one record is what is removed. *)
Theorem delete_blocked_iff_active_booking (st : store) (bikes : list Bike)
    (bookings : list Booking) (inp : delete_input) (i : nat) (bike : Bike) :
  let id := Py.strip (in_delete_bike_id inp) in
  load_bikes st = Ok bikes →
  load_bookings st = Ok bookings →
  list_find (λ b, bike_id b = id) bikes = Some (i, bike) →
  Py.lower (in_confirm_delete inp) = "yes" →
  let active := filter (AdminM.active_for id) bookings in
  let bikes' := filter (λ b, bike_id b ≠ id) bikes in
  let blocked := (CannotDeleteBike (length active), st) in
  let deleted := (BikeDeleted id, save_bikes bikes' st) in
  (step (DeleteBike inp) st = blocked ∨ step (DeleteBike inp) st = deleted)
  ∧ (step (DeleteBike inp) st = blocked
     ↔ ∃ b, b ∈ bookings ∧ booked_bike_id b = id
            ∧ (status b = "Pending" ∨ status b = "Approved"))
  ∧ ((∀ b, b ∈ bookings → booked_bike_id b = id →
           status b = "Completed" ∨ status b = "Rejected") →
     step (DeleteBike inp) st = deleted)
  ∧ load_bikes (save_bikes bikes' st) = Ok bikes'
  ∧ load_bookings (save_bikes bikes' st) = Ok bookings
  ∧ (∀ b, b ∈ bikes' ↔ b ∈ bikes ∧ bike_id b ≠ id)
  ∧ ((∀ j b, bikes !! j = Some b → bike_id b = id → j = i) →
     bikes' = delete i bikes).
Proof.
  intros id Hbk Hbs Hf Hyes active bikes' blocked deleted.
  pose proof (delete_select st bikes bookings inp i bike Hbk Hbs Hf Hyes)
    as Hstep.
  fold id in Hstep. fold active in Hstep. fold bikes' in Hstep.
  assert (Hact : active ≠ [] ↔
            ∃ b, b ∈ bookings ∧ booked_bike_id b = id
                 ∧ (status b = "Pending" ∨ status b = "Approved")).
  { split.
    - intros Hne. destruct active as [|b l] eqn:Ha; [done|].
      assert (Hb : b ∈ filter (AdminM.active_for id) bookings).
      { fold active. rewrite Ha. by left. }
      apply list_elem_of_filter in Hb as [[? ?] ?]. eauto.
    - intros (b & Hb & Hid & Hs) Hnil.
      eapply (filter_nil_not_elem_of (AdminM.active_for id));
        [exact Hnil | by split | exact Hb]. }
  split_and!.
  - destruct active; [by right | by left].
  - rewrite <- Hact. destruct active as [|b l] eqn:Ha.
    + rewrite Hstep. subst blocked deleted. split; [done|]. done.
    + rewrite Hstep. subst blocked. split; [done|]. done.
  - intros Hdone. destruct active as [|b l] eqn:Ha; [done|].
    assert (Hb : b ∈ filter (AdminM.active_for id) bookings).
    { fold active. rewrite Ha. by left. }
    apply list_elem_of_filter in Hb as [[Hid Hs] Hin].
    destruct (Hdone b Hin Hid) as [Hc | Hc]; rewrite Hc in Hs;
      destruct Hs; done.
  - apply load_save_bikes.
  - by rewrite load_bookings_save_bikes.
  - intros b. subst bikes'. rewrite list_elem_of_filter. tauto.
  - intros Huniq. apply list_find_Some in Hf as (Hi & Hid & _).
    by eapply filter_other_ids_delete.
Qed.

End Deletion.

Section Creation.

Import BikeRentalSystem.

Lemma ltb_same_day_after_midnight t now :
  Datetime.year t = Datetime.year now →
  Datetime.month t = Datetime.month now →
  Datetime.day t = Datetime.day now →
  Datetime.hour t = 0 → Datetime.minute t = 0 →
  Datetime.second t = 0 → Datetime.microsecond t = 0 →
  0 ≤ Datetime.hour now → 0 ≤ Datetime.minute now →
  0 ≤ Datetime.second now → 0 ≤ Datetime.microsecond now →
  0 < Datetime.hour now + Datetime.minute now + Datetime.second now
      + Datetime.microsecond now →
  Datetime.ltb t now = true.
Proof.
  destruct t as [y m d h mi s us], now as [y' m' d' h' mi' s' us'].
  simpl. intros -> -> -> -> -> -> -> Hh Hm Hs Hu Hpos.
  unfold Datetime.ltb, Datetime.compare, Datetime.fields. simpl.
  rewrite !Z.compare_refl.
  destruct h' as [|?|?]; [|done|lia].
  destruct mi' as [|?|?]; [|done|lia].
  destruct s' as [|?|?]; [|done|lia].
  destruct us' as [|?|?]; [lia|done|lia].
Qed.

(** C5 (where the code departs from the claim). A request whose from-date
    is the current date is refused with the message that the from-date
    cannot be in the past, and nothing is stored, whenever the clock is
    past midnight: the midnight of the from-date is compared with the
    current date and time. *)
Theorem booking_from_today_is_refused (self : User) (inp : book_input)
    (now : Datetime.datetime) (rnd : nat → nat) (st : store)
    (from_dt to_dt : Datetime.datetime) :
  Datetime.strptime (Py.strip (in_from_date inp)) = Some from_dt →
  Datetime.strptime (Py.strip (in_to_date inp)) = Some to_dt →
  Datetime.gtb from_dt to_dt = false →
  Datetime.year from_dt = Datetime.year now →
  Datetime.month from_dt = Datetime.month now →
  Datetime.day from_dt = Datetime.day now →
  0 ≤ Datetime.hour now → 0 ≤ Datetime.minute now →
  0 ≤ Datetime.second now → 0 ≤ Datetime.microsecond now →
  0 < Datetime.hour now + Datetime.minute now + Datetime.second now
      + Datetime.microsecond now →
  step (BookBike self inp now rnd) st = (FromInThePast, st).
Proof.
  intros Hf Ht Hgt Hy Hm Hd Hh Hmi Hs Hu Hpos.
  destruct (strptime_midnight _ _ Hf) as (H1 & H2 & H3 & H4).
  unfold step. simpl. unfold CustomerM.book_bike.
  rewrite Hf, Ht, Hgt.
  by rewrite (ltb_same_day_after_midnight from_dt now).
Qed.

(** The two other refusals of the claim hold as stated: a from-date after
    the to-date is always refused, and so is a request for a location
    without an available bike. *)
Lemma booking_from_after_to_is_refused self inp now rnd st from_dt to_dt :
  Datetime.strptime (Py.strip (in_from_date inp)) = Some from_dt →
  Datetime.strptime (Py.strip (in_to_date inp)) = Some to_dt →
  Datetime.gtb from_dt to_dt = true →
  step (BookBike self inp now rnd) st = (FromMustBeBeforeTo, st).
Proof.
  intros Hf Ht Hgt. unfold step. simpl. unfold CustomerM.book_bike.
  by rewrite Hf, Ht, Hgt.
Qed.

Lemma booking_without_bike_is_refused self inp now rnd st from_dt to_dt bikes :
  Datetime.strptime (Py.strip (in_from_date inp)) = Some from_dt →
  Datetime.strptime (Py.strip (in_to_date inp)) = Some to_dt →
  Datetime.gtb from_dt to_dt = false →
  Datetime.ltb from_dt now = false →
  load_bikes st = Ok bikes →
  (∀ b, b ∈ bikes → available b = true →
        Py.lower (location b) ≠ Py.lower (Py.strip (in_pickup_location inp))) →
  step (BookBike self inp now rnd) st
  = (NoBikesAvailableIn (Py.strip (in_pickup_location inp)), st).
Proof.
  intros Hf Ht Hgt Hlt Hbk Hnone. unfold step. simpl.
  unfold CustomerM.book_bike. rewrite Hf, Ht, Hgt, Hlt, Hbk. simpl.
  rewrite (proj2 (filter_none _ bikes)); [done|].
  intros b Hb [Hav Hloc]. by apply (Hnone b).
Qed.

Lemma drawn_digit n :
  is_Some (Py.digit_of_ascii
             (default "0"%char
                (list_ascii_of_string Py.digits
                   !! (n mod String.length Py.digits)%nat))).
Proof.
  change (String.length Py.digits) with 10%nat.
  assert (Hlt : (n mod 10 < 10)%nat) by (apply Nat.mod_upper_bound; lia).
  destruct (n mod 10)%nat as [|m]; [by eexists|].
  do 9 (destruct m as [|m]; [by eexists|]). lia.
Qed.

Lemma length_string_of_list_ascii (l : list ascii) :
  String.length (string_of_list_ascii l) = length l.
Proof. induction l as [|c l IH]; simpl; congruence. Qed.

Lemma choices_digits k rnd :
  Forall (λ c, is_Some (Py.digit_of_ascii c))
         (list_ascii_of_string (Py.choices Py.digits k rnd))
  ∧ String.length (Py.choices Py.digits k rnd) = k.
Proof.
  unfold Py.choices. split.
  - rewrite list_ascii_of_string_of_list_ascii.
    apply Forall_forall. intros c Hc.
    apply list_elem_of_In, in_map_iff in Hc as (i & <- & _).
    apply drawn_digit.
  - by rewrite length_string_of_list_ascii, length_map, length_seq.
Qed.

Lemma add_select inp rnd st bikes price :
  load_bikes st = Ok bikes →
  Py.float (Py.strip (in_price inp)) = Some price →
  let bike :=
    mk_Bike ("BIKE" +:+ Py.choices Py.digits 4 rnd)
            (Py.strip (in_name inp)) (Py.strip (in_color inp))
            (Py.strip (in_plate_number inp)) price
            (Py.strip (in_location inp)) true in
  step (AddBike inp rnd) st
  = (BikeAdded (bike_id bike), save_bikes (bikes ++ [bike]) st).
Proof.
  intros Hbk Hp bike. unfold step. simpl. unfold AdminM.add_bike.
  rewrite Hp, Hbk. reflexivity.
Qed.

(** C6 (as amended). The identifier [add_bike] gives a new bike is the
    prefix BIKE followed by four decimal digits fixed by the random draws
    alone, without a look at the stored collection; the bike is appended
    under that identifier in any case, so the identifier is unique among
    the stored ones exactly when no stored bike already carries it. *)
Theorem add_bike_id_is_drawn_unchecked (inp : add_input) (rnd : nat → nat)
    (st : store) (bikes : list Bike) (price : float) :
  load_bikes st = Ok bikes →
  Py.float (Py.strip (in_price inp)) = Some price →
  let suffix := Py.choices Py.digits 4 rnd in
  let id := "BIKE" +:+ suffix in
  ∃ bike,
    step (AddBike inp rnd) st = (BikeAdded id, save_bikes (bikes ++ [bike]) st)
    ∧ load_bikes (save_bikes (bikes ++ [bike]) st) = Ok (bikes ++ [bike])%list
    ∧ bike_id bike = id
    ∧ String.length suffix = 4%nat
    ∧ Forall (λ c, is_Some (Py.digit_of_ascii c)) (list_ascii_of_string suffix)
    ∧ ((∀ b, b ∈ bikes → bike_id b ≠ id)
       ↔ length (filter (λ b, bike_id b = id) (bikes ++ [bike])) = 1%nat).
Proof.
  intros Hbk Hp suffix id. eexists. split_and!.
  - exact (add_select inp rnd st bikes price Hbk Hp).
  - apply load_save_bikes.
  - reflexivity.
  - apply choices_digits.
  - apply choices_digits.
  - rewrite filter_app, length_app.
    rewrite filter_cons_True by reflexivity. simpl.
    split.
    + intros Hfresh. rewrite (proj2 (filter_none _ bikes)); [done|].
      intros b Hb Hid. by apply (Hfresh b).
    + intros Hlen b Hb Hid.
      assert (Hnil : filter (λ b, bike_id b = id) bikes = []).
      { apply length_zero_iff_nil. lia. }
      by eapply (filter_nil_not_elem_of (λ b, bike_id b = id)).
Qed.

(** C7 (as amended). [add_bike] checks that the price typed is a number
    and nothing more: when [float] refuses the text the bike is not added
    and the files are as before; when [float] accepts it the bike is
    appended with that price, whatever its sign. *)
Theorem add_bike_checks_price_is_a_number (inp : add_input)
    (rnd : nat → nat) (st : store) (bikes : list Bike) :
  load_bikes st = Ok bikes →
  (Py.float (Py.strip (in_price inp)) = None →
   step (AddBike inp rnd) st = (InvalidPrice, st))
  ∧ (∀ price, Py.float (Py.strip (in_price inp)) = Some price →
       ∃ bike,
         step (AddBike inp rnd) st
         = (BikeAdded (bike_id bike), save_bikes (bikes ++ [bike]) st)
         ∧ load_bikes (save_bikes (bikes ++ [bike]) st)
           = Ok (bikes ++ [bike])%list
         ∧ price_per_day bike = price
         ∧ available bike = true).
Proof.
  intros Hbk. split.
  - intros Hp. unfold step. simpl. unfold AdminM.add_bike. by rewrite Hp.
  - intros price Hp. eexists. split_and!.
    + exact (add_select inp rnd st bikes price Hbk Hp).
    + apply load_save_bikes.
    + reflexivity.
    + reflexivity.
Qed.

End Creation.

(* ===================================================================== *)
(** * The scenario, run through the theorems                              *)
(* ===================================================================== *)

Section Scenario.

Import BikeRentalSystem.

(** Settles a closed equation by evaluation. *)
Ltac ev := vm_compute; reflexivity.

Lemma status_transitions_are_legal_witness :
  load_bookings booked_store = Ok [january_booking]
  ∧ ∃ bookings' b',
      load_bookings
        (step (ManageBookings (mk_manage_input "1" "1")) booked_store).2
      = Ok bookings'
      ∧ bookings' !! 0%nat = Some b'
      ∧ (b' = january_booking
         ∨ legal_transition (status january_booking) (status b')).
Proof.
  split; [ev|].
  destruct (status_transitions_are_legal
              (ManageBookings (mk_manage_input "1" "1")) booked_store
              [january_booking] ltac:(ev)) as [(bs' & Hl & Hall) _].
  destruct (Hall 0%nat january_booking eq_refl) as (b' & Hb' & Hcase).
  exists bs', b'. split; [exact Hl|]. split; [exact Hb'|].
  destruct Hcase as [Heq | (_ & Hleg & _)]; [by left | by right].
Defined.

Lemma reject_and_payment_set_availability_witness :
  (∃ bikes' bike',
     load_bikes contested_store = Ok (yamaha_out :: tail sample_bikes)
     ∧ step (ManageBookings (mk_manage_input "1" "2")) contested_store
       = (BookingRejected "BKG000100",
          save_all_data bikes'
            [BookingM.with_status "Completed" january_booking;
             BookingM.with_status "Rejected" bob_booking]
            contested_store)
     ∧ bikes' !! 0%nat = Some bike'
     ∧ available bike' = true)
  ∧ (∃ bikes' bike',
       load_bikes approved_store = Ok (yamaha :: tail sample_bikes)
       ∧ step (MakePayment alice (mk_payment_input "BKG012345" "1"))
              approved_store
         = (PaymentSuccessful "BKG012345",
            save_all_data bikes'
              [BookingM.with_status "Completed" january_booking]
              approved_store)
       ∧ bikes' !! 0%nat = Some bike'
       ∧ available bike' = false).
Proof.
  destruct reject_and_payment_set_availability as [Hreject Hpay]. split.
  - destruct (Hreject contested_store
                [BookingM.with_status "Completed" january_booking; bob_booking]
                (yamaha_out :: tail sample_bikes)
                (mk_manage_input "1" "2") 1 1%nat bob_booking
                ltac:(ev) ltac:(ev) ltac:(ev) ltac:(lia) ltac:(ev) ltac:(ev))
      as (bikes' & _ & Hstep & _ & _ & _ & Hfirst & _).
    destruct (Hfirst 0%nat yamaha_out eq_refl eq_refl
                ltac:(intros j' x Hlt; lia))
      as (bike' & Hb' & Hav & _).
    exists bikes', bike'. split_and!; [ev | exact Hstep | exact Hb' | exact Hav].
  - destruct (Hpay alice approved_store
                [BookingM.with_status "Approved" january_booking]
                (yamaha :: tail sample_bikes)
                (mk_payment_input "BKG012345" "1") 0%nat
                (BookingM.with_status "Approved" january_booking)
                ltac:(ev) ltac:(ev) ltac:(ev) ltac:(ev)
                ltac:(left; reflexivity))
      as (bikes' & Hstep & _ & _ & _ & Hfirst & _).
    destruct (Hfirst 0%nat yamaha eq_refl eq_refl
                ltac:(intros j' x Hlt; lia))
      as (bike' & Hb' & Hav & _).
    exists bikes', bike'. split_and!; [ev | exact Hstep | exact Hb' | exact Hav].
Defined.

(** C2, the claim as stated fails: the store holds two bikes with the
    identifier BIKE0001, the sample bike in Downtown and the added one in
    the Suburbs; alice books the added one (the second bike offered in the
    Suburbs), the admin approves and she pays.  The bookings then hold her
    booking as Completed, the flag of the Downtown bike has become
    [false], and the bike she booked is still stored as available. *)
Lemma payment_leaves_the_booked_bike_available :
  load_bikes twin_store = Ok (sample_bikes ++ [hero])
  ∧ filter (λ b, available b = true ∧ CustomerM.same_location "suburbs" b)
           (sample_bikes ++ [hero]) !! 1%nat = Some hero
  ∧ step (BookBike alice suburbs_request new_years_eve count_up) twin_store
    = (BookingSuccessful "BKG012345",
       save_bookings [suburbs_booking] twin_store)
  ∧ load_bookings twin_paid_store
    = Ok [BookingM.with_status "Completed" suburbs_booking]
  ∧ load_bikes twin_paid_store
    = Ok (yamaha_out :: tail sample_bikes ++ [hero])
  ∧ booked_bike_id suburbs_booking = bike_id hero
  ∧ available hero = true
  ∧ available yamaha_out = false.
Proof. split_and!; ev. Qed.

Lemma total_amount_is_price_times_inclusive_days_witness :
  ∃ booking,
    (step (BookBike alice january_request new_years_eve count_up)
          fresh_store).1
    = BookingSuccessful (booking_id booking)
    ∧ total_amount booking = 75%float.
Proof.
  destruct total_amount_is_price_times_inclusive_days as [Hcreate _].
  destruct (Hcreate alice january_request new_years_eve count_up fresh_store
              sample_bikes []
              (Datetime.mk_datetime 2024 1 1 0 0 0 0)
              (Datetime.mk_datetime 2024 1 3 0 0 0 0) 1
              (mk_Bike "BIKE0001" "Yamaha R15" "Blue" "MH01AB1234" 25
                       "Downtown" true)
              ltac:(ev) ltac:(ev) ltac:(ev) ltac:(ev) ltac:(ev) ltac:(ev)
              ltac:(lia) ltac:(ev) ltac:(ev) ltac:(ev))
    as (booking & Hstep & _ & _ & _ & _ & _ & Htotal).
  exists booking. split.
  - rewrite Hstep. reflexivity.
  - rewrite Htotal. ev.
Defined.

Lemma delete_blocked_iff_active_booking_witness :
  status january_booking = "Pending"
  ∧ step (DeleteBike (mk_delete_input "BIKE0001" "yes")) booked_store
    = (CannotDeleteBike 1, booked_store)
  ∧ load_bookings rejected_store
    = Ok [BookingM.with_status "Rejected" january_booking]
  ∧ step (DeleteBike (mk_delete_input "BIKE0001" "yes")) rejected_store
    = (BikeDeleted "BIKE0001", save_bikes (tail sample_bikes) rejected_store).
Proof.
  split_and!; [reflexivity | | ev |].
  - destruct (delete_blocked_iff_active_booking booked_store sample_bikes
                [january_booking] (mk_delete_input "BIKE0001" "yes") 0%nat
                yamaha ltac:(ev) ltac:(ev) ltac:(ev) ltac:(ev))
      as (_ & Hblocked & _).
    etrans; [|ev]. apply Hblocked.
    exists january_booking. split_and!; [by left | reflexivity | by left].
  - destruct (delete_blocked_iff_active_booking rejected_store sample_bikes
                [BookingM.with_status "Rejected" january_booking]
                (mk_delete_input "BIKE0001" "yes") 0%nat
                yamaha ltac:(ev) ltac:(ev) ltac:(ev) ltac:(ev))
      as (_ & _ & Hdeleted & _).
    etrans; [|ev]. apply Hdeleted. intros b Hb _.
    apply list_elem_of_singleton in Hb. subst b. by right.
Defined.

(** C4, the claim as stated fails: with the two bikes that carry the
    identifier BIKE0001 in store and no booking at all, the confirmed
    deletion of BIKE0001 succeeds and takes both of them out: of the six
    stored bikes, four are left. *)
Lemma delete_removes_both_bikes_with_the_id :
  load_bikes twin_store = Ok (sample_bikes ++ [hero])
  ∧ load_bookings twin_store = Ok []
  ∧ bike_id yamaha = "BIKE0001" ∧ bike_id hero = "BIKE0001"
  ∧ step (DeleteBike (mk_delete_input "BIKE0001" "yes")) twin_store
    = (BikeDeleted "BIKE0001", save_bikes (tail sample_bikes) twin_store)
  ∧ load_bikes (save_bikes (tail sample_bikes) twin_store)
    = Ok (tail sample_bikes)
  ∧ length (sample_bikes ++ [hero]) = 6%nat
  ∧ length (tail sample_bikes) = 4%nat.
Proof. split_and!; ev. Qed.

Lemma booking_from_today_is_refused_witness :
  step (BookBike alice january_request new_years_morning count_up) fresh_store
  = (FromInThePast, fresh_store).
Proof.
  apply (booking_from_today_is_refused alice january_request
           new_years_morning count_up fresh_store
           (Datetime.mk_datetime 2024 1 1 0 0 0 0)
           (Datetime.mk_datetime 2024 1 3 0 0 0 0));
    first [ev | vm_compute; discriminate | vm_compute; reflexivity].
Defined.

(** C6, the claim as stated fails: the first start has stored BIKE0001,
    and an addition whose draws give 0, 0, 0, 1 is handed the identifier
    BIKE0001 again and stored next to it. *)
Lemma add_bike_repeats_a_stored_id :
  load_bikes fresh_store = Ok sample_bikes
  ∧ bike_id <$> sample_bikes !! 0%nat = Some "BIKE0001"
  ∧ (step (AddBike new_bike draw_0001) fresh_store).1 = BikeAdded "BIKE0001"
  ∧ load_bikes (step (AddBike new_bike draw_0001) fresh_store).2
    = Ok (sample_bikes
          ++ [mk_Bike "BIKE0001" "Hero Splendor" "Grey" "MH06KL1122" 18.5
                      "Suburbs" true]).
Proof. split_and!; ev. Qed.

Lemma add_bike_id_is_drawn_unchecked_witness :
  ∃ bike,
    step (AddBike new_bike count_up) fresh_store
    = (BikeAdded "BIKE0123", save_bikes (sample_bikes ++ [bike]) fresh_store)
    ∧ length (filter (λ b, bike_id b = "BIKE0123") (sample_bikes ++ [bike]))
      = 1%nat.
Proof.
  destruct (add_bike_id_is_drawn_unchecked new_bike count_up fresh_store
              sample_bikes 18.5%float ltac:(ev) ltac:(ev))
    as (bike & Hstep & _ & Hid & _ & _ & Hiff).
  exists bike. split; [exact Hstep|].
  apply Hiff. intros b Hb. unfold sample_bikes in Hb.
  repeat (apply elem_of_cons in Hb as [-> | Hb];
          [vm_compute; discriminate|]).
  inversion Hb.
Defined.

(** C7, the claim as stated fails: the price text -5 is read as the
    number -5, which is below zero, and the bike is stored with it. *)
Lemma add_bike_accepts_a_negative_price :
  Py.float (Py.strip (in_price cheap_bike)) = Some (-5)%float
  ∧ ((-5) <? 0)%float = true
  ∧ load_bikes fresh_store = Ok sample_bikes
  ∧ (step (AddBike cheap_bike count_up) fresh_store).1 = BikeAdded "BIKE0123"
  ∧ load_bikes (step (AddBike cheap_bike count_up) fresh_store).2
    = Ok (sample_bikes
          ++ [mk_Bike "BIKE0123" "TVS Sport" "Green" "MH07MN3344" (-5)
                      "Uptown" true]).
Proof. split_and!; ev. Qed.

Lemma add_bike_checks_price_is_a_number_witness :
  step (AddBike (mk_add_input "TVS Sport" "Green" "MH07MN3344" "cheap" "Uptown")
                count_up) fresh_store
  = (InvalidPrice, fresh_store)
  ∧ ∃ bike,
      step (AddBike cheap_bike count_up) fresh_store
      = (BikeAdded (bike_id bike), save_bikes (sample_bikes ++ [bike]) fresh_store)
      ∧ price_per_day bike = (-5)%float.
Proof.
  split.
  - apply (add_bike_checks_price_is_a_number _ count_up fresh_store
             sample_bikes ltac:(ev)). ev.
  - destruct (add_bike_checks_price_is_a_number cheap_bike count_up
                fresh_store sample_bikes ltac:(ev)) as [_ Hadd].
    destruct (Hadd (-5)%float ltac:(ev)) as (bike & Hstep & _ & Hprice & _).
    exists bike. split; [exact Hstep | exact Hprice].
Defined.

Lemma customer_cannot_reach_foreign_booking_witness :
  step (ViewBookingStatus bob "BKG012345") booked_store
  = (NoBookingFound "BKG012345", booked_store)
  ∧ step (MakePayment bob (mk_payment_input "BKG012345" "1")) booked_store
    = (NoBookingFound "BKG012345", booked_store).
Proof.
  destruct (customer_cannot_reach_foreign_booking bob booked_store
              [january_booking] ltac:(ev)) as [Hforeign _].
  destruct (Hforeign "BKG012345") as (_ & Hview & Hpay).
  - intros b Hb _. apply list_elem_of_singleton in Hb. subst b.
    discriminate.
  - split; [exact Hview | exact (Hpay "1")].
Defined.


End Scenario.

(* ===================================================================== *)
(** * Accounts                                                            *)
(* ===================================================================== *)

Section Accounts.

Import BikeRentalSystem.

Ltac ev := vm_compute; reflexivity.

Lemma user_of_to_dict u : user_of (UserM.to_dict u) = Ok u.
Proof. destruct u; reflexivity. Qed.

(** X1. Saving the accounts and loading them again gives back the same
    accounts in the same order, admins as admins and customers as
    customers with their profile fields. *)
Theorem save_then_load_users (st : store) (users : list User) :
  load_users (save_users users st) = Ok users
  ∧ load_bikes (save_users users st) = load_bikes st
  ∧ load_bookings (save_users users st) = load_bookings st.
Proof.
  split_and!; [|reflexivity|reflexivity].
  apply (mapM_from_to _ _ user_of_to_dict).
Qed.

Lemma load_users_create_missing st :
  load_users (create_missing_files st) = load_users st.
Proof. unfold load_users, create_missing_files. simpl. apply load_create_if_missing. Qed.

Lemma perform_users a st users o st' :
  load_users st = Ok users →
  perform a st = Ok (o, st') →
  ∃ users', load_users st' = Ok users' ∧ users_change users users'.
Proof.
  intros Hus Hp.
  assert (Hsame : ∀ st0, load_users st0 = Ok users →
            ∃ users', load_users st0 = Ok users' ∧ users_change users users').
  { intros st0 H0. exists users. split; [done | constructor]. }
  destruct a; simpl in Hp.
  - unfold initialize_files in Hp. rewrite load_users_create_missing, Hus in Hp.
    simpl in Hp. destruct users as [|u us]; simpl in Hp; exec.
    + eexists. split; [|by apply users_bootstrap].
      exact (mapM_from_to _ _ user_of_to_dict [Admin "admin" "admin123"]).
    + apply Hsame. by rewrite load_users_create_missing.
  - unfold SessionM.register_customer in Hp. rewrite Hus in Hp. simpl in Hp.
    destruct (bool_decide _) eqn:Hex; simpl in Hp; exec; [by apply Hsame|].
    eexists. split; [apply (mapM_from_to _ _ user_of_to_dict)|].
    apply users_register; [|done].
    apply bool_decide_eq_false in Hex. intros Hin. apply Hex.
    apply Exists_exists. unfold usernames in Hin.
    apply list_elem_of_In, in_map_iff in Hin as (u & Hu & Hin).
    exists u. split; [by apply list_elem_of_In | done].
  - unfold SessionM.login in Hp. exec; eauto.
  - unfold CustomerM.view_available_bikes in Hp. exec; eauto.
  - unfold CustomerM.book_bike in Hp. exec; eauto.
    match goal with H : save_booking _ _ = Ok _ |- _ =>
      unfold save_booking in H; exec end.
    by apply Hsame.
  - unfold CustomerM.view_booking_status in Hp. exec; eauto.
  - unfold CustomerM.make_payment in Hp. exec; eauto.
  - unfold CustomerM.view_my_bookings in Hp. exec; eauto.
  - unfold AdminM.add_bike in Hp. exec; eauto.
  - unfold AdminM.view_all_bikes in Hp. exec; eauto.
  - unfold AdminM.update_bike in Hp. exec; eauto.
  - unfold AdminM.delete_bike in Hp. exec; eauto.
  - unfold AdminM.view_all_bookings in Hp. exec; eauto.
  - unfold AdminM.manage_bookings in Hp. exec; eauto.
  - unfold AdminM.view_all_customers in Hp. exec; eauto.
Qed.

Lemma step_users a st users :
  load_users st = Ok users →
  ∃ users', load_users (step a st).2 = Ok users' ∧ users_change users users'.
Proof.
  intros Hus. unfold step. destruct (perform a st) as [[o st']|e] eqn:Hp.
  - exact (perform_users a st users o st' Hus Hp).
  - exists users. split; [|constructor]. simpl.
    destruct a; try exact Hus. by rewrite load_users_create_missing.
Qed.

Lemma users_change_keeps users users' :
  users_change users users' →
  NoDup (usernames users) →
  NoDup (usernames users') ∧ users `prefix_of` users'.
Proof.
  intros [| -> |c Hfresh _] Hnd.
  - done.
  - split; [|by apply prefix_nil]. apply NoDup_singleton.
  - split; [|by apply prefix_app_r].
    unfold usernames in *. rewrite map_app. simpl.
    apply NoDup_app. split_and!; [done | | apply NoDup_singleton].
    intros x Hx Hx'. apply list_elem_of_singleton in Hx'. by subst.
Qed.

(** X2. Whatever sequence of menu choices is made, the stored accounts
    keep pairwise different usernames, and no account is ever removed or
    altered: the accounts of before are a prefix of the accounts of
    after. *)
Theorem usernames_stay_distinct (trace : list action) (st : store)
    (users : list User) :
  load_users st = Ok users →
  NoDup (usernames users) →
  ∃ users',
    load_users (run trace st) = Ok users'
    ∧ NoDup (usernames users')
    ∧ users `prefix_of` users'.
Proof.
  revert st users. induction trace as [|a trace IH]; intros st users Hus Hnd.
  - exists users. done.
  - destruct (step_users a st users Hus) as (us1 & Hus1 & Hch).
    destruct (users_change_keeps _ _ Hch Hnd) as [Hnd1 Hpre1].
    destruct (IH (step a st).2 us1 Hus1 Hnd1) as (us2 & Hus2 & Hnd2 & Hpre2).
    exists us2. split_and!; [done | done |]. by etrans.
Qed.

Lemma list_find_app_fresh {A} (P : A → Prop) `{∀ x, Decision (P x)}
    (l : list A) (x : A) :
  (∀ y, y ∈ l → ¬ P y) → P x →
  list_find P (l ++ [x]) = Some (length l, x).
Proof.
  intros Hl Hx. apply list_find_Some. split_and!.
  - by rewrite lookup_app_r, Nat.sub_diag by lia.
  - done.
  - intros j y Hj Hlt. apply Hl. rewrite lookup_app_l in Hj by done.
    by eapply list_elem_of_lookup_2.
Qed.

(** X3. A visitor whose username is not yet taken is registered as a
    customer, appended to the accounts, and can then log in with the very
    text typed at registration; a username that is taken is refused and
    the files stay as they are. *)
Theorem register_then_login (st : store) (users : list User)
    (inp : register_input) :
  load_users st = Ok users →
  let username := Py.strip (in_reg_username inp) in
  let customer :=
    Customer username (Py.strip (in_reg_password inp))
             (Py.strip (in_reg_name inp)) (Py.strip (in_reg_phone inp))
             (Py.strip (in_reg_email inp)) in
  (username ∉ usernames users →
   let st' := save_users (users ++ [customer]) st in
   step (Register inp) st = (RegistrationSuccessful customer, st')
   ∧ load_users st' = Ok (users ++ [customer])
   ∧ step (Login (in_reg_username inp) (in_reg_password inp)) st'
     = (LoginSuccessful customer, st'))
  ∧ (username ∈ usernames users →
     step (Register inp) st = (UsernameExists, st)).
Proof.
  intros Hus username customer.
  assert (Hdec : Exists (λ u, UserM.username u = username) users
                 ↔ username ∈ usernames users).
  { rewrite Exists_exists. unfold usernames.
    rewrite list_elem_of_In, in_map_iff. split.
    - intros (u & Hin & Hu). exists u. by rewrite <- list_elem_of_In.
    - intros (u & Hu & Hin). exists u. by rewrite list_elem_of_In. }
  split.
  - intros Hfresh st'.
    assert (Hload : load_users st' = Ok (users ++ [customer])).
    { apply (mapM_from_to _ _ user_of_to_dict). }
    split_and!; [|done|].
    + unfold step. simpl. unfold SessionM.register_customer.
      rewrite Hus. simpl. fold username.
      rewrite bool_decide_eq_false_2; [reflexivity|].
      intros Hex. by apply Hfresh, Hdec.
    + unfold step. simpl. unfold SessionM.login. rewrite Hload. simpl.
      fold username.
      rewrite (list_find_app_fresh _ users customer); [done | | done].
      intros y Hy [Hn _]. apply Hfresh. unfold usernames.
      apply list_elem_of_In, in_map_iff. exists y.
      by rewrite <- list_elem_of_In.
  - intros Htaken. unfold step. simpl. unfold SessionM.register_customer.
    rewrite Hus. simpl. fold username.
    rewrite bool_decide_eq_true_2; [reflexivity|]. by apply Hdec.
Qed.

(** X4. Login never writes; it succeeds exactly when some stored account
    has the typed username and password (both stripped of surrounding
    whitespace), and then returns the first such account. *)
Theorem login_matches_credentials (st : store) (users : list User)
    (in_username in_password : string) :
  load_users st = Ok users →
  let matches u :=
    UserM.username u = Py.strip in_username
    ∧ UserM.password u = Py.strip in_password in
  (step (Login in_username in_password) st).2 = st
  ∧ ((∃ i user,
        (step (Login in_username in_password) st).1 = LoginSuccessful user
        ∧ users !! i = Some user ∧ matches user
        ∧ ∀ j u, users !! j = Some u → (j < i)%nat → ¬ matches u)
     ∨ ((step (Login in_username in_password) st).1 = InvalidCredentials
        ∧ ∀ u, u ∈ users → ¬ matches u)).
Proof.
  intros Hus matches. unfold step. simpl. unfold SessionM.login.
  rewrite Hus. simpl.
  destruct (list_find _ users) as [[i user]|] eqn:Hf; simpl.
  - split; [done|]. left. apply list_find_Some in Hf as (Hi & Hm & Hfirst).
    exists i, user. done.
  - split; [done|]. right. split; [done|].
    apply list_find_None in Hf. by apply Forall_forall.
Qed.

End Accounts.

Section AccountsScenario.

Import BikeRentalSystem.

Ltac ev := vm_compute; reflexivity.

Lemma usernames_stay_distinct_witness :
  ∃ users',
    load_users (run [Register carol_form; Login "carol" "pass123"] fresh_store)
    = Ok users'
    ∧ NoDup (usernames users').
Proof.
  destruct (usernames_stay_distinct
              [Register carol_form; Login "carol" "pass123"] fresh_store
              [Admin "admin" "admin123"] ltac:(ev)
              ltac:(apply NoDup_singleton))
    as (users' & Hload & Hnd & _).
  exists users'. split; [exact Hload | exact Hnd].
Defined.

Lemma register_then_login_witness :
  (step (Register carol_form) fresh_store).1
  = RegistrationSuccessful
      (Customer "carol" "pass123" "Carol" "555-0102" "carol@example.org")
  ∧ (step (Login " carol " "pass123")
          (step (Register carol_form) fresh_store).2).1
    = LoginSuccessful
        (Customer "carol" "pass123" "Carol" "555-0102" "carol@example.org").
Proof.
  destruct (register_then_login fresh_store [Admin "admin" "admin123"]
              carol_form ltac:(ev)) as [Hnew _].
  destruct Hnew as (Hreg & _ & Hlog).
  - intros Hin. apply list_elem_of_singleton in Hin. discriminate Hin.
  - rewrite Hreg. split; [ev|]. cbn [snd].
    etrans; [exact (f_equal fst Hlog) | ev].
Defined.

Lemma login_matches_credentials_witness :
  (step (Login "admin" " admin123 ") fresh_store).2 = fresh_store.
Proof.
  exact (proj1 (login_matches_credentials fresh_store
                  [Admin "admin" "admin123"] "admin" " admin123 "
                  ltac:(ev))).
Defined.

End AccountsScenario.

(* ===================================================================== *)
(** * First start, and what operations leave alone                        *)
(* ===================================================================== *)

Section Frames.

Import BikeRentalSystem.

Lemma create_if_missing_idem f :
  create_if_missing (create_if_missing f) = create_if_missing f.
Proof. by destruct f. Qed.

Lemma create_missing_files_idem st :
  create_missing_files (create_missing_files st) = create_missing_files st.
Proof.
  unfold create_missing_files. simpl. by rewrite !create_if_missing_idem.
Qed.

(** X5. The first start: when no account can be loaded (the users file is
    missing, unreadable or empty) the admin account admin/admin123 is
    stored and the bikes file is overwritten with the five sample bikes,
    whatever bikes it held, while the bookings are kept; when an account
    exists only the missing files are created and everything loads as
    before. *)
Theorem initialize_bootstraps_without_accounts (st : store) :
  (load_users st = Ok [] →
   let st' := save_bikes sample_bikes
                (save_users [Admin "admin" "admin123"]
                   (create_missing_files st)) in
   step Initialize st = (Initialized, st')
   ∧ load_users st' = Ok [Admin "admin" "admin123"]
   ∧ load_bikes st' = Ok sample_bikes
   ∧ load_bookings st' = load_bookings st)
  ∧ (∀ u us, load_users st = Ok (u :: us) →
       step Initialize st = (Initialized, create_missing_files st)
       ∧ load_users (create_missing_files st) = load_users st
       ∧ load_bikes (create_missing_files st) = load_bikes st
       ∧ load_bookings (create_missing_files st) = load_bookings st).
Proof.
  split.
  - intros Hus st'. split_and!.
    + unfold step. simpl. unfold initialize_files.
      rewrite load_users_create_missing, Hus. reflexivity.
    + exact (mapM_from_to _ _ user_of_to_dict [Admin "admin" "admin123"]).
    + apply load_save_bikes.
    + unfold load_bookings. simpl. apply load_create_if_missing.
  - intros u us Hus. split_and!.
    + unfold step. simpl. unfold initialize_files.
      rewrite load_users_create_missing, Hus. reflexivity.
    + apply load_users_create_missing.
    + unfold load_bikes. simpl. apply load_create_if_missing.
    + unfold load_bookings. simpl. apply load_create_if_missing.
Qed.

Lemma initialize_step st :
  step Initialize st =
    match load_users (create_missing_files st) with
    | Ok [] =>
        (Initialized,
         save_bikes sample_bikes
           (save_users [Admin "admin" "admin123"] (create_missing_files st)))
    | Ok (_ :: _) => (Initialized, create_missing_files st)
    | Raise e => (Crashed e, create_missing_files st)
    end.
Proof.
  unfold step. cbn [perform]. unfold initialize_files.
  by destruct (load_users (create_missing_files st)) as [[|u us]|e].
Qed.

(** X6. Starting twice is the same as starting once: a second
    initialization reports what the first reported and leaves the files
    the first left. *)
Theorem initialize_is_idempotent (st : store) :
  step Initialize (step Initialize st).2 = step Initialize st.
Proof.
  rewrite (initialize_step st).
  destruct (load_users (create_missing_files st)) as [[|u us]|e] eqn:Hus;
    cbn [snd]; rewrite initialize_step.
  - set (st' := save_bikes _ _).
    assert (Hcm : create_missing_files st' = st').
    { unfold st', create_missing_files, save_bikes, save_users.
      cbn [USERS_FILE BIKES_FILE BOOKINGS_FILE create_if_missing].
      by rewrite create_if_missing_idem. }
    rewrite Hcm.
    assert (Hl : load_users st' = Ok [Admin "admin" "admin123"]).
    { exact (mapM_from_to _ _ user_of_to_dict [Admin "admin" "admin123"]). }
    by rewrite Hl.
  - by rewrite create_missing_files_idem, Hus.
  - by rewrite create_missing_files_idem, Hus.
Qed.

(** X7. An operation that does not report a success has written nothing:
    after every refusal, cancellation, listing or uncaught exception the
    three files are exactly the files of before (for the first start that
    is stopped by an exception: the files of before plus the ones it
    created empty). *)
Theorem no_success_no_write (a : action) (st : store) :
  reports_success (step a st).1 = false →
  (step a st).2 = files_at_crash a st.
Proof.
  unfold step. destruct (perform a st) as [[o st']|e] eqn:Hp; [|done].
  simpl. intros Hns.
  destruct a; simpl in Hp.
  - unfold initialize_files in Hp. exec; done.
  - unfold SessionM.register_customer in Hp. exec; done.
  - unfold SessionM.login in Hp. exec; done.
  - unfold CustomerM.view_available_bikes in Hp. exec; done.
  - unfold CustomerM.book_bike in Hp. exec; done.
  - unfold CustomerM.view_booking_status in Hp. exec; done.
  - unfold CustomerM.make_payment in Hp. exec; done.
  - unfold CustomerM.view_my_bookings in Hp. exec; done.
  - unfold AdminM.add_bike in Hp. exec; done.
  - unfold AdminM.view_all_bikes in Hp. exec; done.
  - unfold AdminM.update_bike in Hp. exec; done.
  - unfold AdminM.delete_bike in Hp. exec; done.
  - unfold AdminM.view_all_bookings in Hp. exec; done.
  - unfold AdminM.manage_bookings in Hp. exec; done.
  - unfold AdminM.view_all_customers in Hp. exec; done.
Qed.

Lemma details_set_first_available id v bikes :
  map details (set_first_available id v bikes) = map details bikes.
Proof.
  unfold set_first_available.
  destruct (list_find _ bikes) as [[i b]|] eqn:Hf; [|done].
  apply list_find_Some in Hf as (Hi & _ & _).
  change (map details (<[i:=BikeM.with_available v b]> bikes))
    with (details <$> <[i:=BikeM.with_available v b]> bikes).
  rewrite list_fmap_insert. apply list_insert_id.
  rewrite list_lookup_fmap, Hi. reflexivity.
Qed.

(** X8. Outside the admin's add, update and delete dialogues and the
    first start, no operation adds, removes, reorders or edits a bike:
    the stored bikes are the same bikes with the same identifiers, names,
    colours, plates, prices and locations; at most availability flags
    differ. *)
Theorem only_inventory_dialogues_edit_bikes (a : action) (st : store)
    (bikes : list Bike) :
  edits_inventory a = false →
  load_bikes st = Ok bikes →
  ∃ bikes',
    load_bikes (step a st).2 = Ok bikes'
    ∧ map details bikes' = map details bikes.
Proof.
  intros Ha Hbk.
  assert (Hsame : ∀ st0, load_bikes st0 = Ok bikes →
            ∃ bikes', load_bikes st0 = Ok bikes'
                      ∧ map details bikes' = map details bikes) by eauto.
  unfold step. destruct (perform a st) as [[o st']|e] eqn:Hp; simpl;
    [|destruct a; try done; by apply Hsame].
  destruct a; try done; simpl in Hp.
  - unfold SessionM.register_customer in Hp. exec; by apply Hsame.
  - unfold SessionM.login in Hp. exec; by apply Hsame.
  - unfold CustomerM.view_available_bikes in Hp. exec; by apply Hsame.
  - unfold CustomerM.book_bike in Hp. exec; try by apply Hsame.
    match goal with H : save_booking _ _ = Ok _ |- _ =>
      unfold save_booking in H; exec end.
    by apply Hsame.
  - unfold CustomerM.view_booking_status in Hp. exec; by apply Hsame.
  - unfold CustomerM.make_payment in Hp. rewrite Hbk in Hp.
    exec; try by apply Hsame.
    eexists. split; [apply load_bikes_save_all|].
    apply details_set_first_available.
  - unfold CustomerM.view_my_bookings in Hp. exec; by apply Hsame.
  - unfold AdminM.view_all_bikes in Hp. exec; by apply Hsame.
  - unfold AdminM.view_all_bookings in Hp. exec; by apply Hsame.
  - unfold AdminM.manage_bookings in Hp. rewrite Hbk in Hp.
    exec; try by apply Hsame.
    eexists. split; [apply load_bikes_save_all|].
    apply details_set_first_available.
  - unfold AdminM.view_all_customers in Hp. exec; by apply Hsame.
Qed.

End Frames.

Section FramesScenario.

Import BikeRentalSystem.

Ltac ev := vm_compute; reflexivity.

Lemma initialize_bootstraps_without_accounts_witness :
  load_users (step Initialize empty_store).2 = Ok [Admin "admin" "admin123"]
  ∧ load_bikes (step Initialize empty_store).2 = Ok sample_bikes.
Proof.
  destruct (initialize_bootstraps_without_accounts empty_store) as [Hboot _].
  destruct (Hboot ltac:(ev)) as (Hstep & Hus & Hbk & _).
  rewrite Hstep. split; [exact Hus | exact Hbk].
Defined.

Lemma no_success_no_write_witness :
  (step (BookBike alice january_request new_years_morning count_up)
        fresh_store).2
  = fresh_store.
Proof.
  exact (no_success_no_write
           (BookBike alice january_request new_years_morning count_up)
           fresh_store ltac:(ev)).
Defined.

Lemma only_inventory_dialogues_edit_bikes_witness :
  ∃ bikes',
    load_bikes
      (step (MakePayment alice (mk_payment_input "BKG012345" "1"))
            approved_store).2
    = Ok bikes'
    ∧ map details bikes' = map details sample_bikes.
Proof.
  exact (only_inventory_dialogues_edit_bikes
           (MakePayment alice (mk_payment_input "BKG012345" "1"))
           approved_store sample_bikes eq_refl ltac:(ev)).
Defined.

End FramesScenario.

(* ===================================================================== *)
(** * The life of bookings, continued                                     *)
(* ===================================================================== *)

Section BookingsLog.

Import BikeRentalSystem.

Lemma with_status_same b : b = BookingM.with_status (status b) b.
Proof. by destruct b. Qed.

Lemma bookings_change_keeps a bs bs' :
  bookings_change a bs bs' →
  (length bs ≤ length bs')%nat
  ∧ ∀ i b, bs !! i = Some b →
      ∃ b', bs' !! i = Some b' ∧ b' = BookingM.with_status (status b') b.
Proof.
  intros Hch. split.
  - destruct Hch; rewrite ?length_app, ?length_insert; lia.
  - intros i b Hi.
    destruct (bookings_change_lookup a bs bs' i b Hch Hi) as (b' & Hi' & Hc).
    exists b'. split; [done|].
    destruct Hc as [-> | [(_ & _ & [-> | ->]) | (_ & _ & ->)]];
      [apply with_status_same | done..].
Qed.

(** X9. The bookings file is an append-only log: over any sequence of
    menu choices no booking is removed or moved, and a stored booking
    keeps its identifier, customer, bike, pickup location, dates and total
    amount; only its status can differ. *)
Theorem bookings_are_append_only (trace : list action) (st : store)
    (bookings : list Booking) :
  load_bookings st = Ok bookings →
  ∃ bookings',
    load_bookings (run trace st) = Ok bookings'
    ∧ (length bookings ≤ length bookings')%nat
    ∧ ∀ i b, bookings !! i = Some b →
        ∃ b', bookings' !! i = Some b'
              ∧ b' = BookingM.with_status (status b') b.
Proof.
  revert st bookings. induction trace as [|a trace IH]; intros st bs Hbs.
  - exists bs. split_and!; [done | done |]. intros i b Hi.
    exists b. split; [done | apply with_status_same].
  - destruct (step_bookings a st bs Hbs) as (bs1 & Hbs1 & Hch).
    destruct (bookings_change_keeps a bs bs1 Hch) as [Hlen1 Hkeep1].
    destruct (IH (step a st).2 bs1 Hbs1) as (bs2 & Hbs2 & Hlen2 & Hkeep2).
    exists bs2. split_and!; [done | lia |]. intros i b Hi.
    destruct (Hkeep1 i b Hi) as (b1 & Hi1 & Hb1).
    destruct (Hkeep2 i b1 Hi1) as (b2 & Hi2 & Hb2).
    exists b2. split; [done|]. rewrite Hb2, Hb1. by destruct b.
Qed.

Lemma filter_insert_drop {A} (P : A → Prop) `{∀ x, Decision (P x)}
    (l : list A) : ∀ i x y,
  l !! i = Some x → P x → ¬ P y →
  S (length (filter P (<[i:=y]> l))) = length (filter P l).
Proof.
  induction l as [|z l IH]; intros i x y Hi Hx Hy; [done|].
  destruct i as [|i]; simpl in *.
  - injection Hi as ->.
    by rewrite filter_cons_False, filter_cons_True.
  - destruct (decide (P z)).
    + rewrite !filter_cons_True by done. simpl. f_equal. by eapply IH.
    + rewrite !filter_cons_False by done. by eapply IH.
Qed.

(** X10. The admin's approve/reject dialogue takes exactly one booking
    out of the waiting list when it reports an approval or a rejection,
    and leaves the bookings as they are in every other case; with no
    Pending booking on file it reports that there is none. *)
Theorem manage_settles_one_pending_booking (inp : manage_input)
    (st : store) (bookings : list Booking) :
  load_bookings st = Ok bookings →
  (pending_count bookings = 0%nat →
   step (ManageBookings inp) st = (NoPendingBookings, st))
  ∧ ∃ bookings',
      load_bookings (step (ManageBookings inp) st).2 = Ok bookings'
      ∧ match (step (ManageBookings inp) st).1 with
        | BookingApproved _ | BookingRejected _ =>
            S (pending_count bookings') = pending_count bookings
        | _ => bookings' = bookings
        end.
Proof.
  intros Hbs. split.
  - intros H0. unfold step. simpl. unfold AdminM.manage_bookings.
    rewrite Hbs. simpl. unfold filter_pos.
    assert (Hnil : filter (λ b, status b = "Pending") bookings = []).
    { by apply length_zero_iff_nil. }
    destruct (filter _ (imap pair bookings)) as [|[i b] l] eqn:Hf; [done|].
    assert (Hin : (i, b) ∈ filter (λ ix : nat * Booking,
                       status ix.2 = "Pending") (imap pair bookings)).
    { rewrite Hf. by left. }
    apply list_elem_of_filter in Hin as [Hp Hin].
    apply elem_of_lookup_imap in Hin as (j & y & Heq & Hj).
    simplify_eq/=.
    exfalso. eapply (filter_nil_not_elem_of (λ b, status b = "Pending"));
      [exact Hnil | exact Hp | by eapply list_elem_of_lookup_2].
  - unfold step. destruct (perform _ st) as [[o st']|e] eqn:Hp; simpl;
      [|by exists bookings].
    simpl in Hp. unfold AdminM.manage_bookings in Hp.
    rewrite Hbs in Hp. simpl in Hp.
    exec; try (by exists bookings);
      match goal with
      | E : filter_pos _ _ = _, H : _ !! _ = Some (_, _) |- _ =>
          rewrite <- E in H; apply filter_pos_lookup in H as [Hi Hpend]
      end.
    all: eexists; split;
      [ first [apply load_save_bookings | apply load_bookings_save_all]
      | unfold pending_count;
        eapply (filter_insert_drop (λ b, status b = "Pending")); eauto;
        simpl; discriminate ].
Qed.

Lemma list_find_insert_same {A} (P : A → Prop) `{∀ x, Decision (P x)}
    (l : list A) i x y :
  list_find P l = Some (i, x) → P y →
  list_find P (<[i:=y]> l) = Some (i, y).
Proof.
  intros (Hi & Hx & Hfirst)%list_find_Some Hy. apply list_find_Some.
  split_and!; [|done|].
  - apply list_lookup_insert_eq. by eapply lookup_lt_Some.
  - intros j z Hj Hlt. rewrite list_lookup_insert_ne in Hj by lia.
    by eapply Hfirst.
Qed.

(** X11. A booking cannot be paid twice: after a successful payment any
    further payment attempt by the same customer for the same booking id
    is refused because the status is Completed, and writes nothing. *)
Theorem paid_booking_cannot_be_paid_again (self : User) (st : store)
    (bookings : list Booking) (bikes : list Bike) (inp : payment_input)
    (i : nat) (b : Booking) :
  load_bookings st = Ok bookings →
  load_bikes st = Ok bikes →
  CustomerM.find_own self (Py.strip (in_pay_booking_id inp)) bookings
    = Some (i, b) →
  status b = "Approved" →
  in_pay_method inp = "1" ∨ in_pay_method inp = "2"
    ∨ in_pay_method inp = "3" →
  let st' := (step (MakePayment self inp) st).2 in
  (step (MakePayment self inp) st).1
  = PaymentSuccessful (Py.strip (in_pay_booking_id inp))
  ∧ ∀ method,
      step (MakePayment self
              (mk_payment_input (in_pay_booking_id inp) method)) st'
      = (CannotMakePayment "Completed", st').
Proof.
  intros Hbs Hbk Hfind Hs Hm st'.
  assert (Hstep : step (MakePayment self inp) st
            = (PaymentSuccessful (Py.strip (in_pay_booking_id inp)),
               save_all_data
                 (set_first_available (booked_bike_id b) false bikes)
                 (<[i := BookingM.with_status "Completed" b]> bookings) st)).
  { unfold step. simpl.
    rewrite (payment_select self st bookings inp i b Hbs Hfind Hs Hm).
    by rewrite Hbk. }
  subst st'. rewrite Hstep. simpl. split; [done|]. intros method.
  unfold step. simpl. unfold CustomerM.make_payment.
  rewrite load_bookings_save_all. simpl.
  unfold CustomerM.find_own in *.
  rewrite (list_find_insert_same _ bookings i b
             (BookingM.with_status "Completed" b) Hfind).
  - reflexivity.
  - apply list_find_Some in Hfind as (_ & Hown & _). exact Hown.
Qed.

(** X12. A Pending booking does not reserve the bike: after a booking has
    been stored the bikes file is unchanged, so the same request (same
    location, dates and bike number), made by any customer at any moment
    before the from-date has passed, is stored as well, and the two
    bookings name the same bike for the same dates. *)
Theorem pending_booking_does_not_reserve (self self' : User)
    (inp : book_input) (now now' : Datetime.datetime) (rnd rnd' : nat → nat)
    (st : store) (bikes : list Bike) (bookings : list Booking)
    (from_dt to_dt : Datetime.datetime) (k : Z) (bike : Bike) :
  Datetime.strptime (Py.strip (in_from_date inp)) = Some from_dt →
  Datetime.strptime (Py.strip (in_to_date inp)) = Some to_dt →
  Datetime.gtb from_dt to_dt = false →
  Datetime.ltb from_dt now = false →
  Datetime.ltb from_dt now' = false →
  load_bikes st = Ok bikes →
  Py.int (in_bike_number inp) = Some k → 1 ≤ k →
  filter (λ b, available b = true
               ∧ CustomerM.same_location (Py.strip (in_pickup_location inp)) b)
         bikes !! Z.to_nat (k - 1) = Some bike →
  Py.lower (in_confirm_booking inp) = "yes" →
  load_bookings st = Ok bookings →
  let st1 := (step (BookBike self inp now rnd) st).2 in
  let st2 := (step (BookBike self' inp now' rnd') st1).2 in
  ∃ b1 b2,
    (step (BookBike self inp now rnd) st).1
    = BookingSuccessful (booking_id b1)
    ∧ (step (BookBike self' inp now' rnd') st1).1
      = BookingSuccessful (booking_id b2)
    ∧ load_bikes st2 = Ok bikes
    ∧ load_bookings st2 = Ok (bookings ++ [b1; b2])
    ∧ booked_bike_id b1 = bike_id bike ∧ booked_bike_id b2 = bike_id bike
    ∧ from_date b1 = from_date b2 ∧ to_date b1 = to_date b2
    ∧ status b1 = "Pending" ∧ status b2 = "Pending"
    ∧ customer_username b1 = UserM.username self
    ∧ customer_username b2 = UserM.username self'.
Proof.
  intros Hf Ht Hgt Hlt Hlt' Hbk Hint Hk Hsel Hyes Hbs st1 st2.
  pose proof (book_select self inp now rnd st bikes bookings from_dt to_dt
                k bike Hf Ht Hgt Hlt Hbk Hint Hk Hsel Hyes Hbs) as H1.
  cbv zeta in H1.
  assert (Hstep1 : step (BookBike self inp now rnd) st = _)
    by (unfold step; simpl; rewrite H1; reflexivity).
  subst st2 st1. rewrite Hstep1. cbn [fst snd].
  match type of Hstep1 with
    _ = (_, save_bookings (_ ++ [?b]) _) => set (b1 := b) in * end.
  set (st1 := save_bookings (bookings ++ [b1]) st).
  pose proof (book_select self' inp now' rnd' st1 bikes (bookings ++ [b1])
                from_dt to_dt k bike Hf Ht Hgt Hlt' Hbk Hint Hk Hsel Hyes
                (load_save_bookings _ _)) as H2.
  cbv zeta in H2.
  assert (Hstep2 : step (BookBike self' inp now' rnd') st1 = _)
    by (unfold step; simpl; rewrite H2; reflexivity).
  rewrite Hstep2. cbn [fst snd].
  match type of Hstep2 with
    _ = (_, save_bookings (_ ++ [?b]) _) => set (b2 := b) in * end.
  exists b1, b2. split_and!; try reflexivity.
  - exact Hbk.
  - change (bookings ++ [b1; b2]) with (bookings ++ ([b1] ++ [b2])).
    rewrite app_assoc. apply load_save_bookings.
Qed.

End BookingsLog.

Section BookingsLogScenario.

Import BikeRentalSystem.

Ltac ev := vm_compute; reflexivity.

Lemma bookings_are_append_only_witness :
  ∃ bookings' b',
    load_bookings
      (run [ManageBookings (mk_manage_input "1" "1");
            MakePayment alice (mk_payment_input "BKG012345" "1")]
           booked_store)
    = Ok bookings'
    ∧ bookings' !! 0%nat = Some b'
    ∧ b' = BookingM.with_status (status b') january_booking.
Proof.
  destruct (bookings_are_append_only
              [ManageBookings (mk_manage_input "1" "1");
               MakePayment alice (mk_payment_input "BKG012345" "1")]
              booked_store [january_booking] ltac:(ev))
    as (bookings' & Hload & _ & Hkeep).
  destruct (Hkeep 0%nat january_booking eq_refl) as (b' & Hb' & Heq).
  exists bookings', b'. split; [exact Hload|]. split; [exact Hb' | exact Heq].
Defined.

Lemma manage_settles_one_pending_booking_witness :
  load_bookings booked_store = Ok [january_booking]
  ∧ pending_count [january_booking] = 1%nat
  ∧ ∃ bookings',
      (step (ManageBookings (mk_manage_input "1" "1")) booked_store).1
      = BookingApproved "BKG012345"
      ∧ load_bookings
          (step (ManageBookings (mk_manage_input "1" "1")) booked_store).2
        = Ok bookings'
      ∧ pending_count bookings' = 0%nat.
Proof.
  split; [ev|]. split; [reflexivity|].
  destruct (manage_settles_one_pending_booking (mk_manage_input "1" "1")
              booked_store [january_booking] ltac:(ev))
    as [_ (bookings' & Hload & Hcount)].
  assert (Hout : (step (ManageBookings (mk_manage_input "1" "1"))
                       booked_store).1 = BookingApproved "BKG012345") by ev.
  rewrite Hout in Hcount.
  exists bookings'. split; [exact Hout|]. split; [exact Hload|].
  change (pending_count [january_booking]) with 1%nat in Hcount.
  by injection Hcount.
Defined.

Lemma paid_booking_cannot_be_paid_again_witness :
  step (MakePayment alice (mk_payment_input "BKG012345" "2"))
       (step (MakePayment alice (mk_payment_input "BKG012345" "1"))
             approved_store).2
  = (CannotMakePayment "Completed",
     (step (MakePayment alice (mk_payment_input "BKG012345" "1"))
           approved_store).2).
Proof.
  destruct (paid_booking_cannot_be_paid_again alice approved_store
              [BookingM.with_status "Approved" january_booking] sample_bikes
              (mk_payment_input "BKG012345" "1") 0%nat
              (BookingM.with_status "Approved" january_booking)
              ltac:(ev) ltac:(ev) ltac:(ev) ltac:(ev)
              ltac:(left; reflexivity)) as [_ Hagain].
  exact (Hagain "2").
Defined.

Lemma pending_booking_does_not_reserve_witness :
  ∃ b1 b2,
    load_bookings
      (step (BookBike bob january_request new_years_eve draw_0001)
            (step (BookBike alice january_request new_years_eve count_up)
                  fresh_store).2).2
    = Ok [b1; b2]
    ∧ booked_bike_id b1 = "BIKE0001" ∧ booked_bike_id b2 = "BIKE0001".
Proof.
  destruct (pending_booking_does_not_reserve alice bob january_request
              new_years_eve new_years_eve count_up draw_0001 fresh_store
              sample_bikes []
              (Datetime.mk_datetime 2024 1 1 0 0 0 0)
              (Datetime.mk_datetime 2024 1 3 0 0 0 0) 1
              (mk_Bike "BIKE0001" "Yamaha R15" "Blue" "MH01AB1234" 25
                       "Downtown" true)
              ltac:(ev) ltac:(ev) ltac:(ev) ltac:(ev) ltac:(ev) ltac:(ev)
              ltac:(ev) ltac:(lia) ltac:(ev) ltac:(ev) ltac:(ev))
    as (b1 & b2 & _ & _ & _ & Hload & Hb1 & Hb2 & _).
  exists b1, b2. split; [exact Hload|]. split; [exact Hb1 | exact Hb2].
Defined.

End BookingsLogScenario.

(* ===================================================================== *)
(** * The inventory                                                       *)
(* ===================================================================== *)

Section Inventory.

Import BikeRentalSystem.

Lemma apply_update_keeps inp bike :
  bike_id (AdminM.apply_update inp bike).1 = bike_id bike
  ∧ available (AdminM.apply_update inp bike).1 = available bike.
Proof.
  unfold AdminM.apply_update.
  destruct (String.eqb _ _); [done|]. by destruct (Py.float _).
Qed.

Lemma update_select inp st bikes i bike :
  load_bikes st = Ok bikes →
  list_find (λ b, bike_id b = Py.strip (in_update_bike_id inp)) bikes
    = Some (i, bike) →
  step (UpdateBike inp) st
  = (BikeUpdated (Py.strip (in_update_bike_id inp))
       (AdminM.apply_update (in_new inp) bike).2,
     save_bikes (<[i := (AdminM.apply_update (in_new inp) bike).1]> bikes) st).
Proof.
  intros Hbk Hf. unfold step. simpl. unfold AdminM.update_bike.
  rewrite Hbk. simpl. rewrite Hf.
  by destruct (AdminM.apply_update (in_new inp) bike).
Qed.

Lemma update_absent inp st bikes :
  load_bikes st = Ok bikes →
  list_find (λ b, bike_id b = Py.strip (in_update_bike_id inp)) bikes = None →
  step (UpdateBike inp) st
  = (NoBikeFound (Py.strip (in_update_bike_id inp)), st).
Proof.
  intros Hbk Hf. unfold step. simpl. unfold AdminM.update_bike.
  rewrite Hbk. simpl. by rewrite Hf.
Qed.

(** X13. Updating a bike never changes which identifiers are on file nor
    any availability flag, keeps the number and order of the bikes, and
    leaves every bike with another identifier exactly as it was. *)
Theorem update_keeps_ids_and_availability (inp : update_input) (st : store)
    (bikes : list Bike) :
  load_bikes st = Ok bikes →
  ∃ bikes',
    load_bikes (step (UpdateBike inp) st).2 = Ok bikes'
    ∧ map bike_id bikes' = map bike_id bikes
    ∧ map available bikes' = map available bikes
    ∧ (∀ j b, bikes !! j = Some b →
         bike_id b ≠ Py.strip (in_update_bike_id inp) →
         bikes' !! j = Some b)
    ∧ load_bookings (step (UpdateBike inp) st).2 = load_bookings st
    ∧ load_users (step (UpdateBike inp) st).2 = load_users st.
Proof.
  intros Hbk.
  destruct (list_find (λ b, bike_id b = Py.strip (in_update_bike_id inp))
              bikes) as [[i bike]|] eqn:Hf.
  - rewrite (update_select inp st bikes i bike Hbk Hf). cbn [snd].
    eexists. split; [apply load_save_bikes|].
    apply list_find_Some in Hf as (Hi & Hid & _).
    destruct (apply_update_keeps (in_new inp) bike) as [Hkid Hkav].
    split_and!; [| | |reflexivity|reflexivity].
    + change (map bike_id (<[i:=?x]> bikes))
        with (bike_id <$> <[i:=x]> bikes).
      rewrite list_fmap_insert, Hkid. apply list_insert_id.
      by rewrite list_lookup_fmap, Hi.
    + change (map available (<[i:=?x]> bikes))
        with (available <$> <[i:=x]> bikes).
      rewrite list_fmap_insert, Hkav. apply list_insert_id.
      by rewrite list_lookup_fmap, Hi.
    + intros j b Hj Hne. rewrite list_lookup_insert_ne; [done|].
      intros ->. rewrite Hi in Hj. injection Hj as ->. done.
  - rewrite (update_absent inp st bikes Hbk Hf). cbn [snd].
    exists bikes. done.
Qed.

Lemma apply_update_blank inp bike :
  Py.strip (in_name inp) = "" → Py.strip (in_color inp) = "" →
  Py.strip (in_plate_number inp) = "" → Py.strip (in_price inp) = "" →
  Py.strip (in_location inp) = "" →
  AdminM.apply_update inp bike = (bike, false).
Proof.
  intros H1 H2 H3 H4 H5. unfold AdminM.apply_update, AdminM.keep_or.
  rewrite H1, H2, H3, H4, H5. by destruct bike.
Qed.

(** X14. Pressing Enter (or typing only blanks) at all five prompts of
    the update dialogue reports the update as done without a price
    warning and stores the bikes exactly as they were loaded. *)
Theorem blank_update_changes_nothing (inp : update_input) (st : store)
    (bikes : list Bike) (i : nat) (bike : Bike) :
  load_bikes st = Ok bikes →
  list_find (λ b, bike_id b = Py.strip (in_update_bike_id inp)) bikes
    = Some (i, bike) →
  Py.strip (in_name (in_new inp)) = "" →
  Py.strip (in_color (in_new inp)) = "" →
  Py.strip (in_plate_number (in_new inp)) = "" →
  Py.strip (in_price (in_new inp)) = "" →
  Py.strip (in_location (in_new inp)) = "" →
  step (UpdateBike inp) st
  = (BikeUpdated (Py.strip (in_update_bike_id inp)) false,
     save_bikes bikes st)
  ∧ load_bikes (save_bikes bikes st) = Ok bikes.
Proof.
  intros Hbk Hf H1 H2 H3 H4 H5. split; [|apply load_save_bikes].
  rewrite (update_select inp st bikes i bike Hbk Hf).
  rewrite (apply_update_blank (in_new inp) bike H1 H2 H3 H4 H5). cbn [fst snd].
  apply list_find_Some in Hf as (Hi & _ & _).
  by rewrite list_insert_id.
Qed.

(** What the customer's listing shows. *)
Lemma view_available_select in_location st bikes :
  load_bikes st = Ok bikes →
  let shown :=
    filter (λ b, available b = true
                 ∧ (Py.strip in_location = ""
                    ∨ CustomerM.same_location (Py.strip in_location) b))
           bikes in
  (step (ViewAvailableBikes in_location) st).2 = st
  ∧ match shown with
    | [] => (step (ViewAvailableBikes in_location) st).1 = NoBikesAtTheMoment
            ∨ (step (ViewAvailableBikes in_location) st).1
              = NoBikesAvailableIn (Py.strip in_location)
    | _ :: _ => (step (ViewAvailableBikes in_location) st).1
                = AvailableBikes shown
    end.
Proof.
  intros Hbk shown. unfold step. simpl.
  unfold CustomerM.view_available_bikes. rewrite Hbk. simpl.
  assert (Hshown : shown =
            filter (λ b, Py.strip in_location = ""
                         ∨ CustomerM.same_location (Py.strip in_location) b)
                   (filter (λ b, available b = true) bikes)).
  { unfold shown. rewrite list_filter_filter.
    apply list_filter_iff. intros b. tauto. }
  destruct (filter (λ b, available b = true) bikes) as [|x l] eqn:Hav.
  - rewrite Hshown. simpl. split; [done | by left].
  - destruct (String.eqb_spec (Py.strip in_location) "") as [He|Hne].
    + assert (Hall : shown = x :: l).
      { rewrite Hshown. apply filter_all. intros b _. by left. }
      rewrite Hall. simpl. done.
    + assert (Hloc : shown =
                filter (CustomerM.same_location (Py.strip in_location))
                       (x :: l)).
      { rewrite Hshown. apply list_filter_iff. intros b. split; [|by right].
        by intros [?|?]. }
      rewrite <- Hloc. destruct shown; simpl; [by split; [|right] | done].
Qed.

(** X15. The customer's listing never writes, and what it shows is
    exactly the stored bikes that are available and, when a location is
    typed, whose location equals it up to letter case, in stored order;
    it reports that there is nothing to show exactly when no stored bike
    qualifies. *)
Theorem listing_shows_the_available_bikes (in_location : string)
    (st : store) (bikes : list Bike) :
  load_bikes st = Ok bikes →
  let qualifies b :=
    available b = true
    ∧ (Py.strip in_location = ""
       ∨ Py.lower (location b) = Py.lower (Py.strip in_location)) in
  (step (ViewAvailableBikes in_location) st).2 = st
  ∧ ((∃ shown,
        (step (ViewAvailableBikes in_location) st).1 = AvailableBikes shown
        ∧ shown ≠ []
        ∧ shown = filter qualifies bikes
        ∧ ∀ b, b ∈ shown ↔ b ∈ bikes ∧ qualifies b)
     ∨ (((step (ViewAvailableBikes in_location) st).1 = NoBikesAtTheMoment
         ∨ (step (ViewAvailableBikes in_location) st).1
           = NoBikesAvailableIn (Py.strip in_location))
        ∧ ∀ b, b ∈ bikes → ¬ qualifies b)).
Proof.
  intros Hbk qualifies.
  destruct (view_available_select in_location st bikes Hbk) as [Hst Hout].
  split; [exact Hst|].
  change (filter _ bikes) with (filter qualifies bikes) in Hout.
  destruct (filter qualifies bikes) as [|x l] eqn:Hf.
  - right. split; [exact Hout|]. intros b Hb Hq.
    eapply (filter_nil_not_elem_of qualifies); [exact Hf | exact Hq | exact Hb].
  - left. exists (x :: l). split_and!; [done | done | done |].
    intros b. rewrite <- Hf, list_elem_of_filter. tauto.
Qed.

(** X16. Once a bike id has been deleted it is gone: a further deletion
    or an update of that id reports that no bike was found and writes
    nothing, and the listing no longer shows a bike with that id. *)
Theorem deleted_id_is_gone (st : store) (bikes : list Bike)
    (bookings : list Booking) (inp : delete_input) (i : nat) (bike : Bike) :
  let id := Py.strip (in_delete_bike_id inp) in
  load_bikes st = Ok bikes →
  load_bookings st = Ok bookings →
  list_find (λ b, bike_id b = id) bikes = Some (i, bike) →
  Py.lower (in_confirm_delete inp) = "yes" →
  filter (AdminM.active_for id) bookings = [] →
  let st' := (step (DeleteBike inp) st).2 in
  (step (DeleteBike inp) st).1 = BikeDeleted id
  ∧ (∀ confirm,
       step (DeleteBike (mk_delete_input (in_delete_bike_id inp) confirm)) st'
       = (NoBikeFound id, st'))
  ∧ (∀ new,
       step (UpdateBike (mk_update_input (in_delete_bike_id inp) new)) st'
       = (NoBikeFound id, st'))
  ∧ ∀ in_location shown,
      (step (ViewAvailableBikes in_location) st').1 = AvailableBikes shown →
      ∀ b, b ∈ shown → bike_id b ≠ id.
Proof.
  intros id Hbk Hbs Hf Hyes Hact st'.
  pose proof (delete_select st bikes bookings inp i bike Hbk Hbs Hf Hyes)
    as Hstep.
  fold id in Hstep. rewrite Hact in Hstep.
  subst st'. rewrite Hstep. cbn [fst snd].
  set (bikes' := filter (λ b, bike_id b ≠ id) bikes).
  assert (Hload : load_bikes (save_bikes bikes' st) = Ok bikes')
    by apply load_save_bikes.
  assert (Hnone : list_find (λ b, bike_id b = id) bikes' = None).
  { apply list_find_None, Forall_forall. intros b Hb.
    by apply list_elem_of_filter in Hb as [? _]. }
  split_and!; [done | | |].
  - intros confirm. unfold step. simpl. unfold AdminM.delete_bike.
    rewrite Hload. simpl. fold id. by rewrite Hnone.
  - intros new. exact (update_absent (mk_update_input _ new) _ bikes' Hload Hnone).
  - intros in_location shown Hshown b Hb.
    destruct (view_available_select in_location _ bikes' Hload) as [_ Hout].
    cbv zeta in Hout.
    destruct (filter _ bikes') as [|x l] eqn:Hfl.
    + destruct Hout as [Hout | Hout]; rewrite Hout in Hshown; discriminate.
    + rewrite Hout in Hshown. injection Hshown as <-.
      rewrite <- Hfl in Hb. apply list_elem_of_filter in Hb as [_ Hb].
      by apply list_elem_of_filter in Hb as [? _].
Qed.

End Inventory.

Section InventoryScenario.

Import BikeRentalSystem.

Ltac ev := vm_compute; reflexivity.

Lemma update_keeps_ids_and_availability_witness :
  ∃ bikes',
    load_bikes
      (step (UpdateBike (mk_update_input "BIKE0003"
                           (mk_add_input "" "Teal" "" "19.5" "")))
            fresh_store).2
    = Ok bikes'
    ∧ map bike_id bikes' = map bike_id sample_bikes.
Proof.
  destruct (update_keeps_ids_and_availability
              (mk_update_input "BIKE0003" (mk_add_input "" "Teal" "" "19.5" ""))
              fresh_store sample_bikes ltac:(ev))
    as (bikes' & Hload & Hids & _).
  exists bikes'. split; [exact Hload | exact Hids].
Defined.

Lemma blank_update_changes_nothing_witness :
  step (UpdateBike (mk_update_input " BIKE0003 "
                      (mk_add_input "" " " "" "" "")))
       fresh_store
  = (BikeUpdated "BIKE0003" false, save_bikes sample_bikes fresh_store).
Proof.
  exact (proj1 (blank_update_changes_nothing
                  (mk_update_input " BIKE0003 " (mk_add_input "" " " "" "" ""))
                  fresh_store sample_bikes 2%nat
                  (mk_Bike "BIKE0003" "Honda CB Shine" "Red" "MH03EF9012" 20
                           "Suburbs" true)
                  ltac:(ev) ltac:(ev) ltac:(ev) ltac:(ev) ltac:(ev) ltac:(ev)
                  ltac:(ev))).
Defined.

Lemma listing_shows_the_available_bikes_witness :
  (step (ViewAvailableBikes " UPTOWN") fresh_store).2 = fresh_store.
Proof.
  exact (proj1 (listing_shows_the_available_bikes " UPTOWN" fresh_store
                  sample_bikes ltac:(ev))).
Defined.

Lemma deleted_id_is_gone_witness :
  step (DeleteBike (mk_delete_input "BIKE0002" "no"))
       (step (DeleteBike (mk_delete_input "BIKE0002" "yes")) booked_store).2
  = (NoBikeFound "BIKE0002",
     (step (DeleteBike (mk_delete_input "BIKE0002" "yes")) booked_store).2).
Proof.
  destruct (deleted_id_is_gone booked_store sample_bikes [january_booking]
              (mk_delete_input "BIKE0002" "yes") 1%nat
              (mk_Bike "BIKE0002" "Royal Enfield Classic 350" "Black"
                       "MH02CD5678" 35 "Uptown" true)
              ltac:(ev) ltac:(ev) ltac:(ev) ltac:(ev) ltac:(ev))
    as (_ & Hagain & _).
  exact (Hagain "no").
Defined.

End InventoryScenario.

(* ===================================================================== *)
(** * Calendar arithmetic                                                 *)
(* ===================================================================== *)

Section Calendar.

Lemma days_before_year_succ y :
  Datetime.days_before_year (y + 1)
  = Datetime.days_before_year y + 365 + leap_day y.
Proof.
  unfold Datetime.days_before_year, leap_day, Datetime.is_leap.
  replace (y + 1 - 1) with y by lia.
  destruct (Z.eqb_spec (y mod 4) 0), (Z.eqb_spec (y mod 100) 0),
           (Z.eqb_spec (y mod 400) 0); simpl;
    Z.div_mod_to_equations; lia.
Qed.

Lemma days_before_year_mono y y' :
  y ≤ y' → Datetime.days_before_year y ≤ Datetime.days_before_year y'.
Proof.
  unfold Datetime.days_before_year. intros Hle.
  Z.div_mod_to_equations. lia.
Qed.

Lemma month_cases m :
  1 ≤ m ≤ 12 →
  m = 1 ∨ m = 2 ∨ m = 3 ∨ m = 4 ∨ m = 5 ∨ m = 6 ∨ m = 7 ∨ m = 8 ∨ m = 9
  ∨ m = 10 ∨ m = 11 ∨ m = 12.
Proof. lia. Qed.

Lemma day_of_year_bounds y m d :
  1 ≤ m ≤ 12 → 1 ≤ d ≤ Datetime.days_in_month y m →
  1 ≤ Datetime.days_before_month y m + d ≤ 365 + leap_day y.
Proof.
  intros Hm Hd. unfold Datetime.days_in_month, Datetime.days_before_month,
    leap_day in *.
  destruct (Datetime.is_leap y);
    destruct (month_cases m Hm) as
      [->|[->|[->|[->|[->|[->|[->|[->|[->|[->|[->| ->]]]]]]]]]]];
    simpl in *; lia.
Qed.

Lemma month_ends_before_next y m m' :
  1 ≤ m → m < m' → m' ≤ 12 →
  Datetime.days_before_month y m + Datetime.days_in_month y m
  ≤ Datetime.days_before_month y m'.
Proof.
  intros H1 Hlt H12. unfold Datetime.days_in_month, Datetime.days_before_month.
  assert (Hm : 1 ≤ m ≤ 12) by lia. assert (Hm' : 1 ≤ m' ≤ 12) by lia.
  destruct (Datetime.is_leap y);
    destruct (month_cases m Hm) as
      [->|[->|[->|[->|[->|[->|[->|[->|[->|[->|[->| ->]]]]]]]]]]];
    destruct (month_cases m' Hm') as
      [->|[->|[->|[->|[->|[->|[->|[->|[->|[->|[->| ->]]]]]]]]]]];
    simpl; lia.
Qed.

Lemma valid_date_bounds y m d :
  Datetime.valid_date y m d = true →
  1 ≤ y ≤ 9999 ∧ 1 ≤ m ≤ 12 ∧ 1 ≤ d ≤ Datetime.days_in_month y m.
Proof.
  unfold Datetime.valid_date, Datetime.MINYEAR, Datetime.MAXYEAR.
  rewrite !andb_true_iff, !Z.leb_le. lia.
Qed.

(** The ordinal follows the calendar order. *)
Lemma ymd2ord_mono y m d y' m' d' :
  Datetime.valid_date y m d = true →
  Datetime.valid_date y' m' d' = true →
  y < y' ∨ (y = y' ∧ (m < m' ∨ (m = m' ∧ d ≤ d'))) →
  Datetime.ymd2ord y m d ≤ Datetime.ymd2ord y' m' d'.
Proof.
  intros (Hy & Hm & Hd)%valid_date_bounds (Hy' & Hm' & Hd')%valid_date_bounds
         Hle.
  unfold Datetime.ymd2ord.
  pose proof (day_of_year_bounds y m d Hm Hd) as Hb.
  pose proof (day_of_year_bounds y' m' d' Hm' Hd') as Hb'.
  destruct Hle as [Hlt | [-> [Hlt | [-> Hle]]]].
  - pose proof (days_before_year_succ y) as Hs.
    pose proof (days_before_year_mono (y + 1) y' ltac:(lia)) as Hmono.
    lia.
  - pose proof (month_ends_before_next y' m m' ltac:(lia) Hlt ltac:(lia)).
    lia.
  - lia.
Qed.

Lemma ymd2ord_range y m d :
  Datetime.valid_date y m d = true →
  1 ≤ Datetime.ymd2ord y m d ≤ 3652059.
Proof.
  intros Hv. pose proof (valid_date_bounds _ _ _ Hv) as (Hy & Hm & Hd).
  split.
  - change 1 with (Datetime.ymd2ord 1 1 1).
    apply ymd2ord_mono; [done | done |]. lia.
  - change 3652059 with (Datetime.ymd2ord 9999 12 31).
    apply ymd2ord_mono; [done | done |].
    unfold Datetime.days_in_month in Hd.
    assert (d ≤ 31).
    { destruct ((m =? 2) && Datetime.is_leap y); [lia|].
      destruct (month_cases m Hm) as
        [->|[->|[->|[->|[->|[->|[->|[->|[->|[->|[->| ->]]]]]]]]]]];
        simpl in Hd; lia. }
    lia.
Qed.

Lemma strptime_valid s t :
  Datetime.strptime s = Some t →
  Datetime.valid_date (Datetime.year t) (Datetime.month t) (Datetime.day t)
  = true.
Proof.
  unfold Datetime.strptime. intros H.
  destruct (Datetime.field_Y s) as [[y s1]|]; simpl in H; [|done].
  destruct (Datetime.dash s1) as [s2|]; simpl in H; [|done].
  destruct (Datetime.field_m s2) as [[m s3]|]; simpl in H; [|done].
  destruct (Datetime.dash s3) as [s4|]; simpl in H; [|done].
  destruct (Datetime.field_d s4) as [[d s5]|]; simpl in H; [|done].
  destruct s5; [|done].
  destruct (Datetime.valid_date y m d) eqn:Hv; [|done].
  by injection H as <-.
Qed.

Lemma not_gtb_dates a b :
  Datetime.gtb a b = false →
  Datetime.year a < Datetime.year b
  ∨ (Datetime.year a = Datetime.year b
     ∧ (Datetime.month a < Datetime.month b
        ∨ (Datetime.month a = Datetime.month b
           ∧ Datetime.day a ≤ Datetime.day b))).
Proof.
  unfold Datetime.gtb, Datetime.compare, Datetime.fields.
  cbn [Datetime.lex_compare]. intros Hgt.
  destruct (Z.compare_spec (Datetime.year a) (Datetime.year b));
    [|by left|done].
  right. split; [done|].
  destruct (Z.compare_spec (Datetime.month a) (Datetime.month b));
    [|by left|done].
  right. split; [done|].
  destruct (Z.compare_spec (Datetime.day a) (Datetime.day b)); [lia|lia|done].
Qed.

(** X17. For every pair of date texts that the booking dialogue accepts
    (both parse and the from-date is not after the to-date) the number of
    rental days, the difference of the dates in days plus one, is at
    least 1 and at most 3652059, the number of days from 0001-01-01 to
    9999-12-31. *)
Theorem rental_days_at_least_one (from_text to_text : string)
    (from_dt to_dt : Datetime.datetime) :
  Datetime.strptime from_text = Some from_dt →
  Datetime.strptime to_text = Some to_dt →
  Datetime.gtb from_dt to_dt = false →
  let rental_days := Datetime.sub_days to_dt from_dt + 1 in
  1 ≤ rental_days ≤ 3652059
  ∧ rental_days
    = Datetime.toordinal to_dt - Datetime.toordinal from_dt + 1.
Proof.
  intros Hf Ht Hgt rental_days. unfold rental_days.
  rewrite (sub_days_midnight _ _ _ _ Ht Hf). split; [|done].
  pose proof (strptime_valid _ _ Hf) as Hvf.
  pose proof (strptime_valid _ _ Ht) as Hvt.
  pose proof (ymd2ord_range _ _ _ Hvf) as Hrf.
  pose proof (ymd2ord_range _ _ _ Hvt) as Hrt.
  assert (Hle : Datetime.toordinal from_dt ≤ Datetime.toordinal to_dt).
  { apply ymd2ord_mono; [done | done |].
    destruct (not_gtb_dates _ _ Hgt) as [?|[? [?|[? ?]]]]; lia. }
  unfold Datetime.toordinal in *. lia.
Qed.

End Calendar.

(* ===================================================================== *)
(** * Bookings and bikes together                                         *)
(* ===================================================================== *)

Section Together.

Import BikeRentalSystem.

(** X18. After a successful payment the bike of the booking is no longer
    on offer: when its identifier is carried by one stored bike only, no
    available bike has that identifier any more, so neither the listing
    nor the booking dialogue shows it. *)
Theorem paid_bike_is_no_longer_offered (self : User) (st : store)
    (bookings : list Booking) (bikes : list Bike) (inp : payment_input)
    (i : nat) (b : Booking) (j : nat) (bike : Bike) :
  load_bookings st = Ok bookings →
  load_bikes st = Ok bikes →
  CustomerM.find_own self (Py.strip (in_pay_booking_id inp)) bookings
    = Some (i, b) →
  status b = "Approved" →
  in_pay_method inp = "1" ∨ in_pay_method inp = "2"
    ∨ in_pay_method inp = "3" →
  bikes !! j = Some bike → bike_id bike = booked_bike_id b →
  (∀ j' x, bikes !! j' = Some x → bike_id x = booked_bike_id b → j' = j) →
  let st' := (step (MakePayment self inp) st).2 in
  ∃ bikes',
    load_bikes st' = Ok bikes'
    ∧ (∀ x, x ∈ bikes' → available x = true →
            bike_id x ≠ booked_bike_id b)
    ∧ ∀ in_location shown,
        (step (ViewAvailableBikes in_location) st').1 = AvailableBikes shown →
        ∀ x, x ∈ shown → bike_id x ≠ booked_bike_id b.
Proof.
  intros Hbs Hbk Hfind Hs Hm Hj Hid Huniq st'.
  assert (Hstep : step (MakePayment self inp) st
            = (PaymentSuccessful (Py.strip (in_pay_booking_id inp)),
               save_all_data
                 (set_first_available (booked_bike_id b) false bikes)
                 (<[i := BookingM.with_status "Completed" b]> bookings) st)).
  { unfold step. simpl.
    rewrite (payment_select self st bookings inp i b Hbs Hfind Hs Hm).
    by rewrite Hbk. }
  subst st'. rewrite Hstep. cbn [snd].
  set (bikes' := set_first_available (booked_bike_id b) false bikes).
  assert (Hload : load_bikes (save_all_data bikes'
                    (<[i := BookingM.with_status "Completed" b]> bookings) st)
                  = Ok bikes') by apply load_bikes_save_all.
  assert (Hfirst : list_find (λ x, bike_id x = booked_bike_id b) bikes
                   = Some (j, bike)).
  { apply list_find_Some. split_and!; [done | done |].
    intros j' y Hj' Hlt Hy. specialize (Huniq j' y Hj' Hy). lia. }
  assert (Hoff : ∀ x, x ∈ bikes' → available x = true →
                      bike_id x ≠ booked_bike_id b).
  { intros x Hx Hav Hxid. apply list_elem_of_lookup_1 in Hx as [j' Hj'].
    unfold bikes' in Hj'.
    rewrite set_first_available_lookup, Hfirst in Hj'.
    case_decide as Hjj.
    - injection Hj' as <-. simpl in Hav. discriminate.
    - by specialize (Huniq j' x Hj' Hxid). }
  exists bikes'. split_and!; [done | done |].
  intros in_location shown Hshown x Hx.
  destruct (view_available_select in_location _ bikes' Hload) as [_ Hout].
  cbv zeta in Hout.
  destruct (filter _ bikes') as [|y l] eqn:Hfl.
  - destruct Hout as [Hout | Hout]; rewrite Hout in Hshown; discriminate.
  - rewrite Hout in Hshown. injection Hshown as <-.
    rewrite <- Hfl in Hx. apply list_elem_of_filter in Hx as [[Hav _] Hx].
    by apply Hoff.
Qed.

(** X19. A booking that has just been stored can be looked up by its
    owner: it is the last entry of the owner's list of bookings, and the
    status view shows it as Pending when the printed id is typed (blanks
    around it do not matter), provided no earlier booking of the same
    customer carries that id. *)
Theorem new_booking_is_visible_to_its_owner (self : User)
    (inp : book_input) (now : Datetime.datetime) (rnd : nat → nat)
    (st : store) (bikes : list Bike) (bookings : list Booking)
    (from_dt to_dt : Datetime.datetime) (k : Z) (bike : Bike) :
  Datetime.strptime (Py.strip (in_from_date inp)) = Some from_dt →
  Datetime.strptime (Py.strip (in_to_date inp)) = Some to_dt →
  Datetime.gtb from_dt to_dt = false →
  Datetime.ltb from_dt now = false →
  load_bikes st = Ok bikes →
  Py.int (in_bike_number inp) = Some k → 1 ≤ k →
  filter (λ b, available b = true
               ∧ CustomerM.same_location (Py.strip (in_pickup_location inp)) b)
         bikes !! Z.to_nat (k - 1) = Some bike →
  Py.lower (in_confirm_booking inp) = "yes" →
  load_bookings st = Ok bookings →
  let id := "BKG" +:+ Py.choices Py.digits 6 rnd in
  let st' := (step (BookBike self inp now rnd) st).2 in
  ∃ booking,
    (step (BookBike self inp now rnd) st).1 = BookingSuccessful id
    ∧ booking_id booking = id ∧ status booking = "Pending"
    ∧ customer_username booking = UserM.username self
    ∧ step (ViewMyBookings self) st'
      = (MyBookings
           (filter (λ b, customer_username b = UserM.username self) bookings
            ++ [booking]), st')
    ∧ ∀ typed,
        Py.strip typed = id →
        (∀ b, b ∈ bookings → customer_username b = UserM.username self →
              booking_id b ≠ id) →
        step (ViewBookingStatus self typed) st' = (BookingShown booking, st').
Proof.
  intros Hf Ht Hgt Hlt Hbk Hint Hk Hsel Hyes Hbs id st'.
  pose proof (book_select self inp now rnd st bikes bookings from_dt to_dt
                k bike Hf Ht Hgt Hlt Hbk Hint Hk Hsel Hyes Hbs) as H1.
  cbv zeta in H1.
  assert (Hstep : step (BookBike self inp now rnd) st = _)
    by (unfold step; simpl; rewrite H1; reflexivity).
  subst st'. rewrite Hstep. cbn [fst snd].
  match type of Hstep with
    _ = (_, save_bookings (_ ++ [?b]) _) => set (booking := b) in * end.
  exists booking. split_and!; try reflexivity.
  - unfold step. simpl. unfold CustomerM.view_my_bookings.
    rewrite load_save_bookings. simpl.
    rewrite filter_app, filter_cons_True by reflexivity.
    rewrite filter_nil.
    by destruct (filter _ bookings).
  - intros typed Htyped Hfresh. unfold step. simpl.
    unfold CustomerM.view_booking_status.
    rewrite load_save_bookings. simpl. rewrite Htyped.
    unfold CustomerM.find_own.
    rewrite (list_find_app_fresh _ bookings booking); [done | | done].
    intros y Hy [Hyid Hyown]. by apply (Hfresh y).
Qed.

End Together.

Section Shadowing.

Import BikeRentalSystem.

Lemma payment_cases self inp st bs :
  load_bookings st = Ok bs →
  ∃ bs',
    load_bookings (step (MakePayment self inp) st).2 = Ok bs'
    ∧ (bs' = bs
       ∨ ∃ i b,
           CustomerM.find_own self (Py.strip (in_pay_booking_id inp)) bs
             = Some (i, b)
           ∧ bs' = <[i := BookingM.with_status "Completed" b]> bs).
Proof.
  intros Hbs. unfold step.
  destruct (perform _ st) as [[o st']|e] eqn:Hp; simpl;
    [|exists bs; split; [done | by left]].
  simpl in Hp. unfold CustomerM.make_payment in Hp.
  rewrite Hbs in Hp. simpl in Hp.
  exec; try (exists bs; split; [done | by left]).
  eexists. split; [apply load_bookings_save_all|]. right. eauto.
Qed.

(** X20. Booking ids are not checked for uniqueness, and the lookups take
    the first match: when a customer has two bookings with the same id,
    the payment dialogue never touches the later one and the status view
    never shows it; both act on a booking at or before the position of
    the earlier one. *)
Theorem lookup_reaches_first_own_booking_only (self : User)
    (inp : payment_input) (st : store) (bookings : list Booking)
    (i j : nat) (b : Booking) :
  load_bookings st = Ok bookings →
  bookings !! i = Some b →
  booking_id b = Py.strip (in_pay_booking_id inp) →
  customer_username b = UserM.username self →
  (i < j)%nat →
  (∃ bookings',
     load_bookings (step (MakePayment self inp) st).2 = Ok bookings'
     ∧ bookings' !! j = bookings !! j)
  ∧ ∃ i0 shown,
      (i0 ≤ i)%nat ∧ bookings !! i0 = Some shown
      ∧ step (ViewBookingStatus self (in_pay_booking_id inp)) st
        = (BookingShown shown, st).
Proof.
  intros Hbs Hi Hid Hown Hlt.
  assert (Hfound : ∃ i0 b0,
            CustomerM.find_own self (Py.strip (in_pay_booking_id inp)) bookings
              = Some (i0, b0) ∧ (i0 ≤ i)%nat).
  { destruct (CustomerM.find_own _ _ bookings) as [[i0 b0]|] eqn:Hf.
    - exists i0, b0. split; [done|].
      apply list_find_Some in Hf as (_ & _ & Hfirst).
      destruct (decide (i0 ≤ i)%nat) as [|Hgt]; [done|].
      exfalso. apply (Hfirst i b Hi); [lia | done].
    - apply list_find_None in Hf. rewrite Forall_forall in Hf.
      exfalso. apply (Hf b); [by eapply list_elem_of_lookup_2 | done]. }
  destruct Hfound as (i0 & b0 & Hf & Hle). split.
  - destruct (payment_cases self inp st bookings Hbs)
      as (bs' & Hbs' & [-> | (i1 & b1 & Hf1 & ->)]).
    + by exists bookings.
    + eexists. split; [exact Hbs'|].
      rewrite Hf in Hf1. injection Hf1 as <- <-.
      apply list_lookup_insert_ne. lia.
  - exists i0, b0. split; [done|].
    split; [by apply find_own_lookup in Hf as (? & _)|].
    unfold step. simpl. unfold CustomerM.view_booking_status.
    rewrite Hbs. simpl. by rewrite Hf.
Qed.

End Shadowing.

Section TogetherScenario.

Import BikeRentalSystem.

Ltac ev := vm_compute; reflexivity.

Lemma rental_days_at_least_one_witness :
  1 ≤ Datetime.sub_days (Datetime.mk_datetime 2024 1 3 0 0 0 0)
                        (Datetime.mk_datetime 2024 1 1 0 0 0 0) + 1
  ≤ 3652059.
Proof.
  exact (proj1 (rental_days_at_least_one "2024-01-01" "2024-01-03"
                  (Datetime.mk_datetime 2024 1 1 0 0 0 0)
                  (Datetime.mk_datetime 2024 1 3 0 0 0 0)
                  ltac:(ev) ltac:(ev) ltac:(ev))).
Defined.

Lemma paid_bike_is_no_longer_offered_witness :
  ∃ bikes',
    load_bikes
      (step (MakePayment alice (mk_payment_input "BKG012345" "1"))
            approved_store).2
    = Ok bikes'
    ∧ ∀ x, x ∈ bikes' → available x = true → bike_id x ≠ "BIKE0001".
Proof.
  destruct (paid_bike_is_no_longer_offered alice approved_store
              [BookingM.with_status "Approved" january_booking] sample_bikes
              (mk_payment_input "BKG012345" "1") 0%nat
              (BookingM.with_status "Approved" january_booking) 0%nat
              (mk_Bike "BIKE0001" "Yamaha R15" "Blue" "MH01AB1234" 25
                       "Downtown" true)
              ltac:(ev) ltac:(ev) ltac:(ev) ltac:(ev)
              ltac:(left; reflexivity) ltac:(ev) ltac:(ev))
    as (bikes' & Hload & Hoff & _).
  - intros j' x Hj' Hx.
    do 5 (destruct j' as [|j'];
          [first [reflexivity | injection Hj' as <-; discriminate Hx]|]).
    discriminate Hj'.
  - exists bikes'. split; [exact Hload | exact Hoff].
Defined.

Lemma new_booking_is_visible_to_its_owner_witness :
  ∃ booking,
    step (ViewBookingStatus alice " BKG012345 ")
         (step (BookBike alice january_request new_years_eve count_up)
               fresh_store).2
    = (BookingShown booking,
       (step (BookBike alice january_request new_years_eve count_up)
             fresh_store).2)
    ∧ status booking = "Pending".
Proof.
  destruct (new_booking_is_visible_to_its_owner alice january_request
              new_years_eve count_up fresh_store sample_bikes []
              (Datetime.mk_datetime 2024 1 1 0 0 0 0)
              (Datetime.mk_datetime 2024 1 3 0 0 0 0) 1
              (mk_Bike "BIKE0001" "Yamaha R15" "Blue" "MH01AB1234" 25
                       "Downtown" true)
              ltac:(ev) ltac:(ev) ltac:(ev) ltac:(ev) ltac:(ev) ltac:(ev)
              ltac:(lia) ltac:(ev) ltac:(ev) ltac:(ev))
    as (booking & _ & _ & Hs & _ & _ & Hview).
  exists booking. split; [|exact Hs].
  apply Hview; [ev|]. intros b Hb. inversion Hb.
Defined.

(** Two bookings of alice under one id: the draws repeat. *)
Lemma lookup_reaches_first_own_booking_only_witness :
  ∃ bookings',
    load_bookings
      (step (MakePayment alice (mk_payment_input "BKG012345" "1"))
            (run [BookBike alice january_request new_years_eve count_up]
                 booked_store)).2
    = Ok bookings'
    ∧ bookings' !! 1%nat = Some january_booking.
Proof.
  destruct (lookup_reaches_first_own_booking_only alice
              (mk_payment_input "BKG012345" "1")
              (run [BookBike alice january_request new_years_eve count_up]
                   booked_store)
              [january_booking; january_booking] 0%nat 1%nat january_booking
              ltac:(ev) ltac:(ev) ltac:(ev) ltac:(ev) ltac:(lia))
    as [(bookings' & Hload & Hsame) _].
  exists bookings'. split; [exact Hload | exact Hsame].
Defined.

End TogetherScenario.
